(** * homelab-apps: the two migration scripts

    A shallow embedding of [scripts/migrate_database.py] and
    [scripts/sync_pvc_from_host.py].  Both scripts are sequences of
    external commands ([kubectl], temporary files, [time.sleep]) whose
    exit status steers the control flow, so the embedding is a state and
    exception monad over a [world]: the world scripts the answer of every
    external action and records what the program did.

    A Python [str] is a [string] of its code points, which covers the
    code points below 256; a Python [bytes] is a [string] of its bytes. *)

From Stdlib Require Import List String Ascii ZArith Lia Bool DecimalString.
Import ListNotations.
Open Scope string_scope.
Open Scope Z_scope.

(** ** Python strings *)

Module PyStr.

Definition nl : string := String (ascii_of_nat 10) EmptyString.
Definition tab : string := String (ascii_of_nat 9) EmptyString.
Definition dq : string := String (ascii_of_nat 34) EmptyString.

(** [str.isspace] on one character: the ASCII white space, the
    separators U+001C to U+001F, NEXT LINE (U+0085) and NO-BREAK SPACE
    (U+00A0). *)
Definition isspace (c : ascii) : bool :=
  let n := nat_of_ascii c in
  ((9 <=? n)%nat && (n <=? 13)%nat) || ((28 <=? n)%nat && (n <=? 32)%nat)
  || (n =? 133)%nat || (n =? 160)%nat.

Fixpoint lstrip (s : string) : string :=
  match s with
  | EmptyString => EmptyString
  | String c s' => if isspace c then lstrip s' else s
  end.

(** [rstrip_by p s] drops the longest suffix of [s] made of characters
    accepted by [p]. *)
Fixpoint rstrip_by (p : ascii -> bool) (s : string) : string :=
  match s with
  | EmptyString => EmptyString
  | String c s' =>
      match rstrip_by p s' with
      | EmptyString => if p c then EmptyString else String c EmptyString
      | r => String c r
      end
  end.

Definition rstrip (s : string) : string := rstrip_by isspace s.

(** [s.strip()] *)
Definition strip (s : string) : string := rstrip (lstrip s).

(** [s.rstrip('/')] *)
Definition rstrip_slash (s : string) : string :=
  rstrip_by (fun c => Ascii.eqb c "/"%char) s.

(** [needle in hay] *)
Definition contains (needle hay : string) : bool :=
  match String.index 0 needle hay with
  | Some _ => true
  | None => false
  end.

(** [sep.join(parts)] *)
Definition join (sep : string) (parts : list string) : string :=
  String.concat sep parts.

Definition unlines (ls : list string) : string :=
  String.concat nl ls.

(** [c * n] for a one-character string. *)
Fixpoint repeat_str (c : string) (n : nat) : string :=
  match n with
  | O => EmptyString
  | S n' => c ++ repeat_str c n'
  end.

Definition str_nat (n : nat) : string :=
  NilEmpty.string_of_uint (Nat.to_uint n).

Definition str_Z (z : Z) : string :=
  NilEmpty.string_of_int (Z.to_int z).

Definition isdigit (c : ascii) : bool :=
  let n := nat_of_ascii c in (48 <=? n)%nat && (n <=? 57)%nat.

Definition digit_val (c : ascii) : Z := Z.of_nat (nat_of_ascii c - 48).

(** The digits of an [int] literal: decimal digits, with single
    underscores allowed between two digits.  [prev] tells whether the
    previous character was a digit. *)
Fixpoint digits (s : string) (acc : Z) (prev : bool) : option Z :=
  match s with
  | EmptyString => if prev then Some acc else None
  | String c s' =>
      if isdigit c then digits s' (10 * acc + digit_val c) true
      else if Ascii.eqb c "_"%char then
             if prev then
               match s' with
               | String d _ => if isdigit d then digits s' acc false else None
               | EmptyString => None
               end
             else None
      else None
  end.

(** [sys.int_max_str_digits] *)
Definition int_max_str_digits : Z := 4300.

Fixpoint digit_count (s : string) : Z :=
  match s with
  | EmptyString => 0
  | String c s' => (if isdigit c then 1 else 0) + digit_count s'
  end.

(** The value of [s] read as a decimal literal of any length. *)
Definition int_literal (s : string) : option Z :=
  match strip s with
  | String "-"%char r => option_map Z.opp (digits r 0 false)
  | String "+"%char r => digits r 0 false
  | r => digits r 0 false
  end.

(** [int(s)] for a [str] argument; [None] stands for [ValueError], which
    a literal of more than [int_max_str_digits] digits raises too. *)
Definition int (s : string) : option Z :=
  match int_literal s with
  | Some z =>
      if int_max_str_digits <? digit_count (strip s) then None else Some z
  | None => None
  end.

Definition sq : string := "'".
Definition backslash : string := String (ascii_of_nat 92) EmptyString.

Definition hex_digit (n : nat) : string :=
  match n with
  | 0 => "0" | 1 => "1" | 2 => "2" | 3 => "3" | 4 => "4" | 5 => "5"
  | 6 => "6" | 7 => "7" | 8 => "8" | 9 => "9" | 10 => "a" | 11 => "b"
  | 12 => "c" | 13 => "d" | 14 => "e" | _ => "f"
  end%nat.

(** [str.isprintable] on one character. *)
Definition isprintable (c : ascii) : bool :=
  let n := nat_of_ascii c in
  ((32 <=? n)%nat && (n <=? 126)%nat)
  || ((161 <=? n)%nat && negb (n =? 173)%nat).

(** One character inside [repr(s)], [quote] being the quote in use. *)
Definition repr_char (quote : ascii) (c : ascii) : string :=
  let n := nat_of_ascii c in
  if (n =? 92)%nat then backslash ++ backslash
  else if Ascii.eqb c quote then backslash ++ String c EmptyString
  else if (n =? 9)%nat then backslash ++ "t"
  else if (n =? 10)%nat then backslash ++ "n"
  else if (n =? 13)%nat then backslash ++ "r"
  else if isprintable c then String c EmptyString
  else backslash ++ "x" ++ hex_digit (n / 16) ++ hex_digit (n mod 16).

Fixpoint repr_body (quote : ascii) (s : string) : string :=
  match s with
  | EmptyString => EmptyString
  | String c s' => repr_char quote c ++ repr_body quote s'
  end.

(** [repr(s)]: single quotes, unless [s] has a single quote and no
    double quote. *)
Definition repr (s : string) : string :=
  if contains sq s && negb (contains dq s)
  then dq ++ repr_body (ascii_of_nat 34) s ++ dq
  else sq ++ repr_body "'"%char s ++ sq.

(** [repr(l)] for a list of [str]. *)
Definition repr_list (l : list string) : string :=
  "[" ++ join ", " (map repr l) ++ "]".

(** The message of the [ValueError] that [int(s)] raises; the literal is
    shown through [%.200R]. *)
Definition int_error (s : string) : string :=
  match int_literal s with
  | Some _ =>
      "Exceeds the limit (4300 digits) for integer string conversion: value has "
      ++ str_Z (digit_count (strip s))
      ++ " digits; use sys.set_int_max_str_digits() to increase the limit"
  | None =>
      "invalid literal for int() with base 10: " ++ substring 0 200 (repr s)
  end.

End PyStr.

(** ** The outside world *)

(** What an external action answers.

    [Exited rc out err]: a process that exited with status [rc].  To a
    call in text mode [out] and [err] are its two output streams as
    decoded by the locale's codec; to a call in binary mode they are the
    raw bytes.

    [Garbled rc out err why]: a process that exited with status [rc] and
    whose output bytes [out], [err] the locale's codec rejects, with the
    complaint [why].  A call in binary mode gets the bytes all the same.

    [Interrupted]: the operator pressed Ctrl-C while the program waited.

    For the file actions a non-zero status stands for [OSError] with the
    message [err], and [out] of a temporary-file creation is its path. *)
Inductive reply : Type :=
| Exited (rc : Z) (out err : string)
| Garbled (rc : Z) (out err why : string)
| Interrupted.

Inductive action : Type :=
| Run (argv : list string) (input : option string)  (* subprocess.run *)
| TmpWrite (suffix data : string)  (* NamedTemporaryFile(delete=False) and write *)
| Unlink (path : string)           (* os.unlink *)
| Sleep (secs : nat).              (* time.sleep *)

Inductive stream : Type := Out | Err.

Inductive event : Type :=
| Did (a : action) (r : reply)
| Print (s : stream) (msg : string).

(** [script] holds the answers of the coming actions, in order; once it is
    used up every further action is answered by [fallback].  [now] is the
    clock read by [time.time()]; a subprocess takes [latency] seconds and
    [time.sleep n] takes [n].  [pod_created] is the one local variable
    of the scripts that is written inside a [try] block and read in its
    [finally] clause, so it has to outlive an exception: the flag of that
    name in [main] of [sync_pvc_from_host.py]. *)
Record world : Type := mkWorld {
  script : list reply;
  fallback : reply;
  trace : list event;
  now : nat;
  latency : nat;
  pod_created : bool
}.

Inductive exn : Type :=
| CalledProcessError (cmd : list string) (rc : Z) (out err : string)
| KeyboardInterrupt
| SystemExit (code : Z)
| RuntimeError (msg : string)
| ValueError (msg : string)
| UnicodeDecodeError (msg : string)
| OSError (msg : string).

(** [Fuel] marks a loop that was cut off by the model, never a Python
    behaviour. *)
Inductive outcome (A : Type) : Type :=
| Val (a : A)
| Raise (e : exn)
| Fuel.
Arguments Val {A} a.
Arguments Raise {A} e.
Arguments Fuel {A}.

Definition M (A : Type) : Type := world -> outcome A * world.

Definition ret {A} (a : A) : M A := fun w => (Val a, w).

Definition bind {A B} (m : M A) (k : A -> M B) : M B :=
  fun w =>
    match m w with
    | (Val a, w') => k a w'
    | (Raise e, w') => (Raise e, w')
    | (Fuel, w') => (Fuel, w')
    end.

Definition raise {A} (e : exn) : M A := fun w => (Raise e, w).

Declare Scope py_scope.
Delimit Scope py_scope with py.
Notation "x <- m ;; k" := (bind m (fun x => k))
  (at level 61, m at next level, right associativity) : py_scope.
Notation "m ;; k" := (bind m (fun _ => k))
  (at level 61, right associativity) : py_scope.
Open Scope py_scope.

(** [try: m except <h>: ...]: [h e] is the handler of the first matching
    [except] clause, [None] when no clause matches. *)
Definition try_except {A} (m : M A) (h : exn -> option (M A)) : M A :=
  fun w =>
    match m w with
    | (Raise e, w') =>
        match h e with
        | Some k => k w'
        | None => (Raise e, w')
        end
    | r => r
    end.

(** [try: m finally: f]: [f] runs on every exit of [m]; what [f] raises
    replaces the outcome of [m]. *)
Definition try_finally {A} (m : M A) (f : M unit) : M A :=
  fun w =>
    match m w with
    | (Fuel, w') => (Fuel, w')
    | (r, w') =>
        match f w' with
        | (Val _, w'') => (r, w'')
        | (Raise e, w'') => (Raise e, w'')
        | (Fuel, w'') => (Fuel, w'')
        end
    end.

(** The exception classes the scripts name in [except] clauses. *)
Definition is_CalledProcessError (e : exn) : bool :=
  match e with CalledProcessError _ _ _ _ => true | _ => false end.

Definition is_OSError (e : exn) : bool :=
  match e with OSError _ => true | _ => false end.

(** [except Exception]: everything but [KeyboardInterrupt] and
    [SystemExit], which derive from [BaseException] only. *)
Definition is_Exception (e : exn) : bool :=
  match e with
  | KeyboardInterrupt | SystemExit _ => false
  | _ => true
  end.

Definition cost (a : action) (w : world) : nat :=
  match a with
  | Run _ _ => latency w
  | Sleep n => n
  | _ => O
  end.

Definition ask (a : action) : M reply :=
  fun w =>
    let r := hd (fallback w) (script w) in
    (Val r, mkWorld (tl (script w)) (fallback w)
                    (trace w ++ [Did a r]) (now w + cost a w) (latency w)
                    (pod_created w)).

(** An action the program waits for, its output taken as bytes: Ctrl-C
    surfaces as [KeyboardInterrupt]. *)
Definition perform (a : action) : M (Z * string * string) :=
  r <- ask a ;;
  match r with
  | Exited rc out err => ret (rc, out, err)
  | Garbled rc out err _ => ret (rc, out, err)
  | Interrupted => raise KeyboardInterrupt
  end.

Definition print (s : stream) (msg : string) : M unit :=
  fun w => (Val tt, mkWorld (script w) (fallback w)
                            (trace w ++ [Print s msg]) (now w) (latency w)
                            (pod_created w)).

Definition set_pod_created (b : bool) : M unit :=
  fun w => (Val tt, mkWorld (script w) (fallback w) (trace w) (now w)
                            (latency w) b).

Definition get_pod_created : M bool := fun w => (Val (pod_created w), w).

Definition sys_exit {A} (code : Z) : M A := raise (SystemExit code).

Definition time_time : M nat := fun w => (Val (now w), w).

Definition time_sleep (n : nat) : M unit :=
  perform (Sleep n) ;; ret tt.

(** [subprocess.run(argv, input=input, capture_output=True, text=text,
    check=check)].  In text mode the two streams are decoded when the
    process has ended, before its status is looked at, so output that
    does not decode raises [UnicodeDecodeError] whatever the status. *)
Definition subprocess_run (argv : list string) (input : option string)
    (text check : bool) : M (string * string) :=
  r <- ask (Run argv input) ;;
  match r with
  | Interrupted => raise KeyboardInterrupt
  | Garbled rc out err why =>
      if text then raise (UnicodeDecodeError why)
      else if check && negb (rc =? 0)
           then raise (CalledProcessError argv rc out err)
           else ret (out, err)
  | Exited rc out err =>
      if check && negb (rc =? 0) then raise (CalledProcessError argv rc out err)
      else ret (out, err)
  end.

(** [os.unlink(path)] *)
Definition os_unlink (path : string) : M unit :=
  r <- perform (Unlink path) ;;
  let '(rc, _, err) := r in
  if rc =? 0 then ret tt else raise (OSError err).

(** [with tempfile.NamedTemporaryFile(..., suffix=suffix, delete=False) as f:
    f.write(data)], giving [f.name]. *)
Definition write_temp_file (suffix data : string) : M string :=
  r <- perform (TmpWrite suffix data) ;;
  let '(rc, out, err) := r in
  if rc =? 0 then ret out else raise (OSError err).

(** The external actions of a trace, prints left out. *)
Fixpoint effects (tr : list event) : list (action * reply) :=
  match tr with
  | [] => []
  | Did a r :: tr' => (a, r) :: effects tr'
  | Print _ _ :: tr' => effects tr'
  end.

Definition actions (tr : list event) : list action := map fst (effects tr).

(** How the interpreter ends: the status the shell sees. *)
Definition exit_status {A} (o : outcome A) : option Z :=
  match o with
  | Val _ => Some 0
  | Raise (SystemExit c) => Some c
  | Raise KeyboardInterrupt => Some 130
  | Raise _ => Some 1
  | Fuel => None
  end.

(** [repr(signal.Signals(n))] on Linux, [None] where [n] names no
    signal. *)
Definition signal_repr (n : Z) : option string :=
  let name :=
    match n with
    | 1 => "SIGHUP" | 2 => "SIGINT" | 3 => "SIGQUIT" | 4 => "SIGILL"
    | 5 => "SIGTRAP" | 6 => "SIGABRT" | 7 => "SIGBUS" | 8 => "SIGFPE"
    | 9 => "SIGKILL" | 10 => "SIGUSR1" | 11 => "SIGSEGV" | 12 => "SIGUSR2"
    | 13 => "SIGPIPE" | 14 => "SIGALRM" | 15 => "SIGTERM"
    | 16 => "SIGSTKFLT" | 17 => "SIGCHLD" | 18 => "SIGCONT"
    | 19 => "SIGSTOP" | 20 => "SIGTSTP" | 21 => "SIGTTIN" | 22 => "SIGTTOU"
    | 23 => "SIGURG" | 24 => "SIGXCPU" | 25 => "SIGXFSZ"
    | 26 => "SIGVTALRM" | 27 => "SIGPROF" | 28 => "SIGWINCH" | 29 => "SIGIO"
    | 30 => "SIGPWR" | 31 => "SIGSYS" | 34 => "SIGRTMIN" | 64 => "SIGRTMAX"
    | _ => EmptyString
    end in
  match name with
  | EmptyString => None
  | _ => Some ("<Signals." ++ name ++ ": " ++ PyStr.str_Z n ++ ">")
  end.

(** [str(e)], as the scripts print it after [ERROR:] and in warnings. *)
Definition str_exn (e : exn) : string :=
  match e with
  | CalledProcessError cmd rc _ _ =>
      if rc <? 0 then
        match signal_repr (- rc) with
        | Some sig =>
            "Command '" ++ PyStr.repr_list cmd ++ "' died with " ++ sig ++ "."
        | None =>
            "Command '" ++ PyStr.repr_list cmd ++ "' died with unknown signal "
            ++ PyStr.str_Z (- rc) ++ "."
        end
      else
        "Command '" ++ PyStr.repr_list cmd
        ++ "' returned non-zero exit status " ++ PyStr.str_Z rc ++ "."
  | RuntimeError msg => msg
  | SystemExit c => PyStr.str_Z c
  | KeyboardInterrupt => EmptyString
  | ValueError msg => msg
  | UnicodeDecodeError msg => msg
  | OSError msg => msg
  end.
(** ** scripts/migrate_database.py *)

Module Migrate.

Definition SOURCE_POD := "prod-postgres-cluster-0".
Definition SOURCE_NAMESPACE := "homelab".
Definition SOURCE_CONTAINER := "prod-postgres-cluster".
Definition SOURCE_DEFAULT_USER := "homelab".

Definition DEST_POD := "postgres-statefulset-0".
Definition DEST_NAMESPACE := "shared".
Definition DEST_CONTAINER := "postgres".
Definition DEST_DEFAULT_USER := "postgres".

Definition banner : string := PyStr.repeat_str "=" 60.

(** [if stdin:] *)
Definition truthy (stdin : option string) : bool :=
  match stdin with
  | Some (String _ _) => true
  | _ => false
  end.

Definition kubectl_exec_argv (pod namespace container : string)
    (command : list string) : list string :=
  ["kubectl"; "exec"; "-n"; namespace; pod; "-c"; container; "--"] ++ command.

Definition run_kubectl_exec (pod namespace container : string)
    (command : list string) (stdin : option string) (binary : bool)
  : M (string * string) :=
  let cmd := kubectl_exec_argv pod namespace container command in
  try_except
    (if truthy stdin then subprocess_run cmd stdin (negb binary) true
     else subprocess_run cmd None (negb binary) true)
    (fun e =>
       match e with
       | CalledProcessError _ rc out err =>
           Some (print Err ("Error executing command: " ++ PyStr.join " " cmd) ;;
                 print Err ("Exit code: " ++ PyStr.str_Z rc) ;;
                 (if negb binary
                  then print Err ("stdout: " ++ out) ;;
                       print Err ("stderr: " ++ err)
                  else ret tt) ;;
                 raise e)
       | _ => None
       end).

Definition check_pod_exists (pod namespace : string) : M bool :=
  try_except
    (r <- subprocess_run ["kubectl"; "get"; "pod"; pod; "-n"; namespace]
                         None true true ;;
     if PyStr.contains "Running" (fst r) then ret true else ret false)
    (fun e => if is_CalledProcessError e then Some (ret false) else None).

Definition exists_query (db_name : string) : string :=
  "SELECT 1 FROM pg_database WHERE datname='" ++ db_name ++ "'".

Definition check_database_exists (pod namespace container db_name pg_user : string)
  : M bool :=
  let psql_cmd := ["psql"; "-U"; pg_user; "-tAc"; exists_query db_name] in
  try_except
    (r <- run_kubectl_exec pod namespace container psql_cmd None false ;;
     ret (PyStr.strip (fst r) =? "1")%string)
    (fun e => if is_CalledProcessError e then Some (ret false) else None).

Definition dump_cmd (db_name pg_user : string) : list string :=
  ["pg_dump"; "-U"; pg_user; "-F"; "c"; db_name].

Definition dump_database (pod namespace container db_name pg_user : string)
  : M string :=
  print Out ("Dumping database '" ++ db_name ++ "' from source server...") ;;
  r <- run_kubectl_exec pod namespace container (dump_cmd db_name pg_user)
                        None true ;;
  let dump_data := fst r in
  if (String.length dump_data =? 0)%nat
  then raise (RuntimeError ("Failed to dump database '" ++ db_name
                            ++ "': dump is empty"))
  else
    print Out ("Successfully dumped database '" ++ db_name ++ "' ("
               ++ PyStr.str_nat (String.length dump_data) ++ " bytes).") ;;
    ret dump_data.

Definition grant_script (db_name db_user : string) : string :=
  PyStr.unlines [
    EmptyString;
    "        DO $$";
    "        DECLARE";
    "            schema_rec RECORD;";
    "        BEGIN";
    "            -- Grant permissions on all schemas to the database user";
    "            FOR schema_rec IN ";
    "                SELECT nspname ";
    "                FROM pg_namespace ";
    "                WHERE nspname NOT IN ('pg_catalog', 'information_schema', 'pg_toast', 'pg_toast_temp_1')";
    "            LOOP";
    "                -- Grant usage and create on schema";
    "                EXECUTE format('GRANT USAGE ON SCHEMA %I TO %I', schema_rec.nspname, '" ++ db_user ++ "');";
    "                EXECUTE format('GRANT CREATE ON SCHEMA %I TO %I', schema_rec.nspname, '" ++ db_user ++ "');";
    "                ";
    "                -- Grant privileges on all existing tables";
    "                EXECUTE format('GRANT ALL PRIVILEGES ON ALL TABLES IN SCHEMA %I TO %I', schema_rec.nspname, '" ++ db_user ++ "');";
    "                ";
    "                -- Grant privileges on all existing sequences";
    "                EXECUTE format('GRANT ALL PRIVILEGES ON ALL SEQUENCES IN SCHEMA %I TO %I', schema_rec.nspname, '" ++ db_user ++ "');";
    "                ";
    "                -- Set default privileges for future objects";
    "                EXECUTE format('ALTER DEFAULT PRIVILEGES IN SCHEMA %I GRANT ALL ON TABLES TO %I', schema_rec.nspname, '" ++ db_user ++ "');";
    "                EXECUTE format('ALTER DEFAULT PRIVILEGES IN SCHEMA %I GRANT ALL ON SEQUENCES TO %I', schema_rec.nspname, '" ++ db_user ++ "');";
    "                ";
    "                -- Change ownership to database user if schema is not system-owned";
    "                IF schema_rec.nspname != 'public' THEN";
    "                    EXECUTE format('ALTER SCHEMA %I OWNER TO %I', schema_rec.nspname, '" ++ db_user ++ "');";
    "                END IF;";
    "            END LOOP;";
    "            ";
    "            -- Grant database connection privilege";
    "            EXECUTE format('GRANT CONNECT ON DATABASE %I TO %I', '" ++ db_name ++ "', '" ++ db_user ++ "');";
    "        END $$;";
    "        "
  ].

Definition fix_perms_cmd (db_name db_user pg_user : string) : list string :=
  ["psql"; "-U"; pg_user; "-d"; db_name; "-tAc"; grant_script db_name db_user].

Definition fix_warning : string :=
  "Warning: Could not fix all permissions automatically. You may need to fix them manually.".

Definition fix_database_permissions
    (pod namespace container db_name db_user pg_user : string) : M unit :=
  print Out ("Fixing permissions for user '" ++ db_user ++ "' on database '"
             ++ db_name ++ "'...") ;;
  try_except
    (run_kubectl_exec pod namespace container
                      (fix_perms_cmd db_name db_user pg_user) None false ;;
     print Out ("Successfully fixed permissions for user '" ++ db_user ++ "'."))
    (fun e =>
       match e with
       | CalledProcessError _ _ _ err =>
           Some (print Err fix_warning ;;
                 print Err ("Error: " ++ err))
       | _ => None
       end).

Definition remote_dump : string := "/tmp/dump.dump".

Definition cp_cmd (tmp_path pod namespace container : string) : list string :=
  ["kubectl"; "cp"; tmp_path; namespace ++ "/" ++ pod ++ ":" ++ remote_dump;
   "-c"; container].

Definition restore_cmd (db_name pg_user : string) (clean : bool) : list string :=
  ["pg_restore"; "-U"; pg_user; "-d"; db_name; "-v"; "--no-owner"; "--no-acl"]
  ++ (if clean then ["--clean"] else [])
  ++ [remote_dump].

Definition rm_cmd : list string := ["rm"; remote_dump].

Definition clean_warning : string :=
  "WARNING: Using --clean flag. This will drop all existing objects in the destination database!".

Definition restore_database (pod namespace container db_name dump_data pg_user : string)
    (clean : bool) : M unit :=
  print Out ("Restoring database '" ++ db_name ++ "' to destination server...") ;;
  tmp_path <- write_temp_file ".dump" dump_data ;;
  try_finally
    (print Out "Copying dump file to destination pod..." ;;
     subprocess_run (cp_cmd tmp_path pod namespace container) None false true ;;
     print Out "Dump file copied successfully.")
    (try_except (os_unlink tmp_path)
                (fun e => if is_OSError e then Some (ret tt) else None)) ;;
  (if clean then print Out clean_warning else ret tt) ;;
  try_finally
    (run_kubectl_exec pod namespace container
                      (restore_cmd db_name pg_user clean) None false ;;
     print Out ("Successfully restored database '" ++ db_name ++ "'."))
    (try_except
       (run_kubectl_exec pod namespace container rm_cmd None false ;; ret tt)
       (fun e => if is_CalledProcessError e then Some (ret tt) else None)).

(** The namespace [argparse] hands to [main]. *)
Record args : Type := mkArgs {
  source_db : string;
  dest_db : string;
  source_user : string;
  dest_user : string;
  clean : bool
}.

Definition main (a : args) : M unit :=
  print Out banner ;;
  print Out "PostgreSQL Database Migration Script" ;;
  print Out banner ;;
  print Out ("Source: " ++ SOURCE_POD ++ " (" ++ SOURCE_NAMESPACE
             ++ ") - Database: " ++ source_db a) ;;
  print Out ("Destination: " ++ DEST_POD ++ " (" ++ DEST_NAMESPACE
             ++ ") - Database: " ++ dest_db a) ;;
  print Out banner ;;
  print Out EmptyString ;;
  print Out "Checking source pod..." ;;
  ok <- check_pod_exists SOURCE_POD SOURCE_NAMESPACE ;;
  (if negb ok
   then print Err ("ERROR: Source pod '" ++ SOURCE_POD
                   ++ "' not found or not running in namespace '"
                   ++ SOURCE_NAMESPACE ++ "'") ;;
        sys_exit 1
   else ret tt) ;;
  print Out ("✓ Source pod '" ++ SOURCE_POD ++ "' is running") ;;
  print Out "Checking destination pod..." ;;
  ok <- check_pod_exists DEST_POD DEST_NAMESPACE ;;
  (if negb ok
   then print Err ("ERROR: Destination pod '" ++ DEST_POD
                   ++ "' not found or not running in namespace '"
                   ++ DEST_NAMESPACE ++ "'") ;;
        sys_exit 1
   else ret tt) ;;
  print Out ("✓ Destination pod '" ++ DEST_POD ++ "' is running") ;;
  print Out EmptyString ;;
  print Out ("Checking if source database '" ++ source_db a ++ "' exists...") ;;
  ok <- check_database_exists SOURCE_POD SOURCE_NAMESPACE SOURCE_CONTAINER
                              (source_db a) (source_user a) ;;
  (if negb ok
   then print Err ("ERROR: Source database '" ++ source_db a
                   ++ "' does not exist") ;;
        sys_exit 1
   else ret tt) ;;
  print Out ("✓ Source database '" ++ source_db a ++ "' exists") ;;
  print Out ("Checking if destination database '" ++ dest_db a ++ "' exists...") ;;
  ok <- check_database_exists DEST_POD DEST_NAMESPACE DEST_CONTAINER
                              (dest_db a) (dest_user a) ;;
  (if negb ok
   then print Err ("ERROR: Destination database '" ++ dest_db a
                   ++ "' does not exist. Please create it first.") ;;
        sys_exit 1
   else ret tt) ;;
  print Out ("✓ Destination database '" ++ dest_db a ++ "' exists") ;;
  print Out EmptyString ;;
  dump_data <- dump_database SOURCE_POD SOURCE_NAMESPACE SOURCE_CONTAINER
                             (source_db a) (source_user a) ;;
  print Out EmptyString ;;
  restore_database DEST_POD DEST_NAMESPACE DEST_CONTAINER (dest_db a)
                   dump_data (dest_user a) (clean a) ;;
  print Out EmptyString ;;
  fix_database_permissions DEST_POD DEST_NAMESPACE DEST_CONTAINER
                           (dest_db a) (dest_db a) (dest_user a) ;;
  print Out EmptyString ;;
  print Out banner ;;
  print Out "Migration completed successfully!" ;;
  print Out banner.

(** The [if __name__ == "__main__":] block. *)
Definition entry (a : args) : M unit :=
  try_except (main a)
    (fun e =>
       match e with
       | KeyboardInterrupt =>
           Some (print Err (PyStr.nl ++ PyStr.nl ++ "Migration interrupted by user.") ;;
                 sys_exit 1)
       | _ =>
           if is_Exception e
           then Some (print Err (PyStr.nl ++ PyStr.nl ++ "ERROR: " ++ str_exn e) ;;
                      sys_exit 1)
           else None
       end).

End Migrate.

(** ** scripts/sync_pvc_from_host.py *)

Module Sync.

Definition banner : string := PyStr.repeat_str "=" 60.

(** [run_kubectl(cmd, check)]; every call site leaves [capture_output]
    at its default [True]. *)
Definition run_kubectl (cmd : list string) (check : bool) : M string :=
  try_except
    (r <- subprocess_run ("kubectl" :: cmd) None true check ;;
     ret (PyStr.strip (fst r)))
    (fun e =>
       match e with
       | CalledProcessError _ _ out err =>
           Some (print Err ("Error running kubectl " ++ PyStr.join " " cmd) ;;
                 print Err ("stdout: " ++ out) ;;
                 print Err ("stderr: " ++ err) ;;
                 raise e)
       | _ => None
       end).

Definition check_pvc_exists (pvc_name namespace : string) : M bool :=
  try_except
    (run_kubectl ["get"; "pvc"; pvc_name; "-n"; namespace] true ;;
     ret true)
    (fun e => if is_CalledProcessError e then Some (ret false) else None).

Definition in_pod (namespace pod_name : string) (command : list string)
  : list string :=
  ["exec"; "-n"; namespace; pod_name; "-c"; "sync"; "--"] ++ command.

Definition test_dir_cmd (namespace pod_name : string) : list string :=
  in_pod namespace pod_name ["test"; "-d"; "/host-data"].

Definition check_host_path_exists_on_node (host_path pod_name namespace : string)
  : M bool :=
  try_except
    (run_kubectl (test_dir_cmd namespace pod_name) false ;;
     ret true)
    (fun _ => Some (ret false)).

Definition pod_manifest (pvc_name namespace pod_name host_path : string)
  : string :=
  PyStr.unlines [
    "apiVersion: v1";
    "kind: Pod";
    "metadata:";
    "  name: " ++ pod_name;
    "  namespace: " ++ namespace;
    "spec:";
    "  containers:";
    "  - name: sync";
    "    image: busybox:latest";
    "    command: [" ++ PyStr.dq ++ "sleep" ++ PyStr.dq ++ ", "
                     ++ PyStr.dq ++ "3600" ++ PyStr.dq ++ "]";
    "    securityContext:";
    "      privileged: true";
    "    volumeMounts:";
    "    - name: host-data";
    "      mountPath: /host-data";
    "      readOnly: true";
    "    - name: pvc";
    "      mountPath: /pvc-data";
    "  volumes:";
    "  - name: host-data";
    "    hostPath:";
    "      path: " ++ host_path;
    "      type: DirectoryOrCreate";
    "  - name: pvc";
    "    persistentVolumeClaim:";
    "      claimName: " ++ pvc_name;
    "  restartPolicy: Never";
    EmptyString
  ].

Definition max_wait : nat := 60.

Definition phase_cmd (pod_name namespace : string) : list string :=
  ["get"; "pod"; pod_name; "-n"; namespace; "-o"; "jsonpath={.status.phase}"].

(** One turn of the [while] loop up to [time.sleep(2)]: [Some b] is
    [return b], [None] falls through to the sleep. *)
Definition poll_once (pod_name namespace : string) : M (option bool) :=
  try_except
    (result <- run_kubectl (phase_cmd pod_name namespace) true ;;
     if (result =? "Running")%string then
       print Out ("✓ Pod '" ++ pod_name ++ "' is ready") ;;
       ret (Some true)
     else if (result =? "Failed")%string then
       print Err ("ERROR: Pod '" ++ pod_name ++ "' failed to start") ;;
       ret (Some false)
     else ret None)
    (fun e => if is_CalledProcessError e then Some (ret None) else None).

(** [while time.time() - start_time < max_wait: ...] and the two lines
    after it.  [fuel] bounds the number of turns. *)
Fixpoint wait_ready (fuel : nat) (pod_name namespace : string)
    (start_time : nat) : M bool :=
  t <- time_time ;;
  if (t - start_time <? max_wait)%nat then
    match fuel with
    | O => fun w => (Fuel, w)
    | S fuel' =>
        v <- poll_once pod_name namespace ;;
        match v with
        | Some b => ret b
        | None => time_sleep 2 ;;
                  wait_ready fuel' pod_name namespace start_time
        end
    end
  else
    print Err ("ERROR: Pod '" ++ pod_name ++ "' did not become ready within "
               ++ PyStr.str_nat max_wait ++ " seconds") ;;
    ret false.

(** Each turn that does not return sleeps two seconds, so thirty turns
    use up [max_wait]. *)
Definition poll_fuel : nat := 30.

Definition create_temp_pod (pvc_name namespace pod_name host_path : string)
  : M bool :=
  print Out ("Creating temporary pod '" ++ pod_name ++ "'...") ;;
  temp_file <- write_temp_file ".yaml"
                 (pod_manifest pvc_name namespace pod_name host_path) ;;
  try_finally
    (run_kubectl ["apply"; "-f"; temp_file] true ;;
     print Out "Waiting for pod to be ready..." ;;
     start_time <- time_time ;;
     wait_ready poll_fuel pod_name namespace start_time)
    (try_except (os_unlink temp_file)
                (fun e => if is_OSError e then Some (ret tt) else None)).

Definition delete_cmd (pod_name namespace : string) : list string :=
  ["delete"; "pod"; pod_name; "-n"; namespace].

Definition delete_pod (pod_name namespace : string) : M unit :=
  print Out ("Deleting temporary pod '" ++ pod_name ++ "'...") ;;
  try_except
    (run_kubectl (delete_cmd pod_name namespace) true ;;
     print Out ("✓ Pod '" ++ pod_name ++ "' deleted"))
    (fun e =>
       if is_CalledProcessError e
       then Some (print Err ("Warning: Failed to delete pod '" ++ pod_name
                             ++ "': " ++ str_exn e))
       else None).

Definition count_files_cmd (namespace pod_name dir : string) : list string :=
  in_pod namespace pod_name ["sh"; "-c"; "find " ++ dir ++ " -type f | wc -l"].

Definition du_cmd (namespace pod_name dir : string) : list string :=
  in_pod namespace pod_name
         ["sh"; "-c"; "du -sb " ++ dir ++ " 2>/dev/null | cut -f1 || echo 0"].

Definition wipe_line : string :=
  "        rm -rf /pvc-data/* /pvc-data/..?* /pvc-data/.[!.]* 2>/dev/null || true".

Definition copy_line : string :=
  "        cd /host-data && tar -cf - . | (cd /pvc-data && tar -xf -)".

Definition sync_script : string :=
  PyStr.unlines [
    EmptyString;
    "        # Clear existing PVC data";
    wipe_line;
    "        ";
    "        # Create tar from host-data and extract to pvc-data in one go";
    copy_line;
    "        ";
    "        # Verify sync completed";
    "        if [ $? -eq 0 ]; then";
    "            echo " ++ PyStr.dq ++ "Sync completed successfully" ++ PyStr.dq;
    "        else";
    "            echo " ++ PyStr.dq ++ "Sync failed" ++ PyStr.dq ++ " >&2";
    "            exit 1";
    "        fi";
    "        "
  ].

Definition sync_cmd (namespace pod_name : string) : list string :=
  in_pod namespace pod_name ["sh"; "-c"; sync_script].

(** [int(s)], raising [ValueError]. *)
Definition py_int (s : string) : M Z :=
  match PyStr.int s with
  | Some z => ret z
  | None => raise (ValueError (PyStr.int_error s))
  end.

Definition sync_data_from_host (host_path pod_name namespace : string) : M unit :=
  print Out ("Syncing data from host path '" ++ host_path
             ++ "' (mounted at /host-data) to PVC (mounted at /pvc-data)...") ;;
  print Out "Verifying host path is accessible in pod..." ;;
  try_except
    (run_kubectl (test_dir_cmd namespace pod_name) true ;;
     print Out "✓ Host path is accessible")
    (fun e =>
       if is_CalledProcessError e
       then Some (print Err "ERROR: Host path '/host-data' is not accessible in pod" ;;
                  raise e)
       else None) ;;
  try_except
    (file_count <- run_kubectl (count_files_cmd namespace pod_name "/host-data")
                               true ;;
     file_count <- py_int (PyStr.strip file_count) ;;
     if file_count =? 0
     then print Out "⚠ Warning: Host path appears to be empty"
     else print Out ("Found " ++ PyStr.str_Z file_count ++ " files in host path"))
    (fun _ => Some (ret tt)) ;;
  print Out "Syncing data using tar (this may take a while)..." ;;
  run_kubectl (sync_cmd namespace pod_name) true ;;
  print Out "✓ Data sync completed".

(** [s or "0"] *)
Definition or_zero (s : string) : string :=
  match s with
  | EmptyString => "0"
  | _ => s
  end.

(** The value [verify_sync] returns once the four numbers are read. *)
Definition counts_match (host_file_count host_total_size
                         pvc_file_count pvc_total_size : Z) : bool :=
  let size_diff := Z.abs (host_total_size - pvc_total_size) in
  (host_file_count =? pvc_file_count) && (size_diff <? 1024).

Definition verify_sync (host_path pod_name namespace : string) : M bool :=
  print Out (PyStr.nl ++ "Verifying sync...") ;;
  try_except
    (host_count_result <- run_kubectl
         (count_files_cmd namespace pod_name "/host-data") true ;;
     host_file_count <- py_int (PyStr.strip host_count_result) ;;
     host_size_result <- run_kubectl
         (du_cmd namespace pod_name "/host-data") true ;;
     host_total_size <- py_int (or_zero (PyStr.strip host_size_result)) ;;
     pvc_count_result <- run_kubectl
         (count_files_cmd namespace pod_name "/pvc-data") true ;;
     pvc_file_count <- py_int (PyStr.strip pvc_count_result) ;;
     pvc_size_result <- run_kubectl
         (du_cmd namespace pod_name "/pvc-data") true ;;
     pvc_total_size <- py_int (or_zero (PyStr.strip pvc_size_result)) ;;
     print Out ("Host path: " ++ PyStr.str_Z host_file_count ++ " files, "
                ++ PyStr.str_Z host_total_size ++ " bytes") ;;
     print Out ("PVC:       " ++ PyStr.str_Z pvc_file_count ++ " files, "
                ++ PyStr.str_Z pvc_total_size ++ " bytes") ;;
     (if host_file_count =? pvc_file_count
      then print Out "✓ File counts match"
      else print Out ("⚠ Warning: File counts differ ("
                      ++ PyStr.str_Z host_file_count ++ " vs "
                      ++ PyStr.str_Z pvc_file_count ++ ")")) ;;
     let size_diff := Z.abs (host_total_size - pvc_total_size) in
     (if size_diff <? 1024
      then print Out "✓ Total sizes match (within tolerance)"
      else print Out ("⚠ Warning: Size difference: "
                      ++ PyStr.str_Z size_diff ++ " bytes")) ;;
     ret (counts_match host_file_count host_total_size
                       pvc_file_count pvc_total_size))
    (fun e =>
       if is_CalledProcessError e
       then Some (print Err ("Warning: Could not verify sync: " ++ str_exn e) ;;
                  ret false)
       else None).

(** The namespace [argparse] hands to [main]. *)
Record args : Type := mkArgs {
  pvc_name : string;
  namespace : string;
  host_path : string;
  verify : bool;
  dry_run : bool
}.

Definition pod_name_at (pvc : string) (t : nat) : string :=
  "pvc-sync-" ++ pvc ++ "-" ++ PyStr.str_nat t.

Definition main (a : args) : M unit :=
  let host_path := PyStr.rstrip_slash (host_path a) in
  print Out banner ;;
  print Out "PVC Sync from Kubernetes Node Host Path" ;;
  print Out banner ;;
  print Out ("PVC: " ++ pvc_name a) ;;
  print Out ("Namespace: " ++ namespace a) ;;
  print Out ("Host Path (on K8s node): " ++ host_path) ;;
  print Out banner ;;
  print Out EmptyString ;;
  ok <- check_pvc_exists (pvc_name a) (namespace a) ;;
  (if negb ok
   then print Err ("ERROR: PVC '" ++ pvc_name a ++ "' not found in namespace '"
                   ++ namespace a ++ "'") ;;
        sys_exit 1
   else ret tt) ;;
  print Out ("✓ PVC '" ++ pvc_name a ++ "' exists") ;;
  print Out ("✓ Will check host path '" ++ host_path ++ "' once pod is created") ;;
  print Out EmptyString ;;
  (if dry_run a
   then print Out "DRY RUN: Would sync data from Kubernetes node host path to PVC" ;;
        print Out "Remove --dry-run to perform actual sync" ;;
        sys_exit 0
   else ret tt) ;;
  t <- time_time ;;
  let pod_name := pod_name_at (pvc_name a) t in
  set_pod_created false ;;
  try_finally
    (try_except
       (ok <- create_temp_pod (pvc_name a) (namespace a) pod_name host_path ;;
        (if negb ok then sys_exit 1 else ret tt) ;;
        set_pod_created true ;;
        sync_data_from_host host_path pod_name (namespace a) ;;
        (if verify a
         then verify_sync host_path pod_name (namespace a) ;; ret tt
         else ret tt) ;;
        print Out EmptyString ;;
        print Out banner ;;
        print Out "Sync completed successfully!" ;;
        print Out banner)
       (fun e =>
          match e with
          | KeyboardInterrupt =>
              Some (print Err (PyStr.nl ++ PyStr.nl ++ "Sync interrupted by user.") ;;
                    sys_exit 1)
          | _ =>
              if is_Exception e
              then Some (print Err (PyStr.nl ++ PyStr.nl ++ "ERROR: " ++ str_exn e) ;;
                         sys_exit 1)
              else None
          end))
    (created <- get_pod_created ;;
     if created then delete_pod pod_name (namespace a) else ret tt).

End Sync.

(** ** Observing a run *)

(** The answer the next external action will get. *)
Definition next_reply (w : world) : reply := hd (fallback w) (script w).

(** The world a process starts in: nothing done yet. *)
Definition fresh (sc : list reply) (fb : reply) (t l : nat) : world :=
  mkWorld sc fb [] t l false.

(** The command run inside a pod by [kubectl exec -n ns pod -c container --]. *)
Definition remote_command (argv : list string) : option (list string) :=
  match argv with
  | "kubectl" :: "exec" :: "-n" :: _ :: _ :: "-c" :: _ :: "--" :: cmd => Some cmd
  | _ => None
  end.

(** The program a [kubectl exec] starts inside the pod. *)
Definition remote_tool (a : action) : option string :=
  match a with
  | Run argv _ =>
      match remote_command argv with
      | Some (tool :: _) => Some tool
      | _ => None
      end
  | _ => None
  end.

(** [kubectl delete pod ...], the command of [delete_pod]. *)
Definition is_delete (a : action) : bool :=
  match a with
  | Run ("kubectl" :: "delete" :: "pod" :: _) _ => true
  | _ => false
  end.

(** How many times a trace tears the helper pod down. *)
Definition deletions (tr : list event) : nat :=
  List.length (filter is_delete (actions tr)).

(** [kubectl apply ...], the command that creates the helper pod. *)
Definition is_apply (a : action) : bool :=
  match a with
  | Run ("kubectl" :: "apply" :: _) _ => true
  | _ => false
  end.

(** The bulk copy: a shell script run in the helper whose text removes
    files. *)
Definition is_bulk_copy (a : action) : bool :=
  match a with
  | Run argv _ =>
      match remote_command argv with
      | Some ["sh"; "-c"; text] => PyStr.contains "rm -rf" text
      | _ => false
      end
  | _ => false
  end.

(** The directory test of the host path inside the helper. *)
Definition is_dir_test (a : action) : bool :=
  match a with
  | Run argv _ =>
      match remote_command argv with
      | Some ["test"; "-d"; "/host-data"] => true
      | _ => false
      end
  | _ => false
  end.

(** The phase query of the readiness loop. *)
Definition is_phase_query (a : action) : bool :=
  match a with
  | Run ("kubectl" :: "get" :: "pod" :: _) _ => true
  | _ => false
  end.

(** An exchange that shows the helper running. *)
Definition shows_running (x : action * reply) : bool :=
  match x with
  | (a, Exited rc out _) =>
      is_phase_query a && (rc =? 0) && (PyStr.strip out =? "Running")%string
  | _ => false
  end.

(** An exchange in which the directory test succeeded. *)
Definition dir_test_passed (x : action * reply) : bool :=
  match x with
  | (a, Exited rc _ _) => is_dir_test a && (rc =? 0)
  | _ => false
  end.

Definition starts_unspaced (s : string) : Prop :=
  match s with
  | EmptyString => True
  | String c _ => PyStr.isspace c = false
  end.

(** [next_after P Q l]: every element of [l] that satisfies [P] is directly
    followed by an element that [Q] relates to it. *)
Fixpoint next_after {X} (P : X -> Prop) (Q : X -> X -> Prop) (l : list X)
  : Prop :=
  match l with
  | [] => True
  | x :: rest =>
      (P x -> match rest with
              | y :: _ => Q x y
              | [] => False
              end)
      /\ next_after P Q rest
  end.

Definition dest_exec (command : list string) : action :=
  Run (Migrate.kubectl_exec_argv Migrate.DEST_POD Migrate.DEST_NAMESPACE
         Migrate.DEST_CONTAINER command) None.

Definition source_exec (command : list string) : action :=
  Run (Migrate.kubectl_exec_argv Migrate.SOURCE_POD Migrate.SOURCE_NAMESPACE
         Migrate.SOURCE_CONTAINER command) None.

(** The five commands a run has issued when the dump returns: all of them
    read. *)
Definition read_only_probes (a : Migrate.args) : list action :=
  [Run ["kubectl"; "get"; "pod"; Migrate.SOURCE_POD; "-n"; Migrate.SOURCE_NAMESPACE]
       None;
   Run ["kubectl"; "get"; "pod"; Migrate.DEST_POD; "-n"; Migrate.DEST_NAMESPACE]
       None;
   source_exec ["psql"; "-U"; Migrate.source_user a; "-tAc";
                Migrate.exists_query (Migrate.source_db a)];
   dest_exec ["psql"; "-U"; Migrate.dest_user a; "-tAc";
              Migrate.exists_query (Migrate.dest_db a)];
   source_exec (Migrate.dump_cmd (Migrate.source_db a) (Migrate.source_user a))].

Definition demo_args : Migrate.args :=
  Migrate.mkArgs "alpha" "alpha" "homelab" "postgres" true.

Definition demo_script : list reply :=
  [Exited 0 "Running" EmptyString; Exited 0 "Running" EmptyString;
   Exited 0 "1" EmptyString; Exited 0 "1" EmptyString;
   Exited 0 "PGDMP" EmptyString; Exited 0 "/tmp/tmpa1.dump" EmptyString;
   Exited 0 EmptyString EmptyString; Exited 0 EmptyString EmptyString;
   Exited 0 EmptyString EmptyString; Exited 0 EmptyString EmptyString;
   Exited 0 EmptyString EmptyString].

(** An exchange that is neither a teardown, nor a bulk copy, nor a
    directory test. *)
Definition quiet (x : action * reply) : Prop :=
  is_delete (fst x) = false
  /\ is_bulk_copy (fst x) = false
  /\ is_dir_test (fst x) = false.

(** An exchange in which [kubectl apply] succeeded. *)
Definition apply_succeeded (x : action * reply) : bool :=
  match x with
  | (a, Exited rc _ _) => is_apply a && (rc =? 0)
  | _ => false
  end.

(** An exchange in which the directory test did not succeed. *)
Definition dir_test_failed (x : action * reply) : bool :=
  is_dir_test (fst x) && negb (dir_test_passed x).

Definition bulk_copy (x : action * reply) : bool := is_bulk_copy (fst x).

Definition dir_test (x : action * reply) : bool := is_dir_test (fst x).

(** [guarded ready tested l]: every bulk copy in [l] comes after an
    exchange that shows the helper running and after a directory test
    that passed; [ready] and [tested] tell what was seen before [l]. *)
Fixpoint guarded (ready tested : bool) (l : list (action * reply)) : bool :=
  match l with
  | [] => true
  | x :: rest =>
      (if bulk_copy x then ready && tested else true)
      && guarded (ready || shows_running x) (tested || dir_test_passed x) rest
  end.

(** An exchange in which the bulk copy succeeded. *)
Definition bulk_copy_ok (x : action * reply) : bool :=
  match x with
  | (a, Exited rc _ _) => is_bulk_copy a && (rc =? 0)
  | _ => false
  end.

(** The last action of a run, [Sleep 0] standing for none. *)
Definition last_action (acts : list (action * reply)) : action :=
  fst (last acts (Sleep 0, Interrupted)).

(** What holds of the exchanges [acts] of a run of [main] in
    [sync_pvc_from_host.py], started at time [t] with subprocesses that
    take [l] seconds, and of its outcome [o]. *)
Definition sync_audit (a : Sync.args) (t l : nat) (o : outcome unit)
    (acts : list (action * reply)) : Prop :=
  let pod := Sync.pod_name_at (Sync.pvc_name a) (t + l) in
  List.length (filter is_delete (map fst acts))
  = (if existsb dir_test acts then 1%nat else 0%nat)
  /\ (existsb dir_test acts = true -> existsb apply_succeeded acts = true)
  /\ guarded false false acts = true
  /\ (existsb dir_test_failed acts = true -> existsb bulk_copy acts = false)
  /\ Forall (fun x =>
               bulk_copy x = true ->
               fst x = Run ("kubectl" :: Sync.sync_cmd (Sync.namespace a) pod)
                           None) acts
  /\ o <> Fuel
  /\ (o = Val tt -> existsb bulk_copy_ok acts = true)
  /\ (existsb dir_test acts = true ->
      last_action acts
      = Run ("kubectl" :: Sync.delete_cmd pod (Sync.namespace a)) None)
  /\ (o = Raise (SystemExit 0) ->
      Sync.dry_run a = true /\ List.length acts = 1%nat).

Definition sample_sync_args : Sync.args :=
  Sync.mkArgs "data" "prod" "/srv/data/" false false.

(** The volume claim exists, the manifest is written, and [kubectl apply]
    is refused. *)
Definition apply_refused : world :=
  fresh [Exited 0 "data Bound" EmptyString;
         Exited 0 "/tmp/tmpk3.yaml" EmptyString;
         Exited 1 EmptyString "pods is forbidden"]
        Interrupted 1000 0.

(** Bytes that are not UTF-8: a message in Latin-1. *)
Definition latin1_complaint : string :=
  "psql: " ++ String (ascii_of_nat 233) "chec de la connexion".

Definition utf8_codec_error : string :=
  "'utf-8' codec can't decode byte 0xe9 in position 6: invalid continuation byte".

(** The catalog lookup exits with status 2 and complains in Latin-1. *)
Definition garbled_probe : world :=
  fresh [Garbled 2 EmptyString latin1_complaint utf8_codec_error]
        Interrupted 0 0.

(** The exit status an answer carries. *)
Definition status_of (r : reply) : option Z :=
  match r with
  | Exited rc _ _ => Some rc
  | Garbled rc _ _ _ => Some rc
  | Interrupted => None
  end.

(** Dump written and copied, restore done, and the remote [rm] fails with
    a complaint in Latin-1. *)
Definition garbled_rm : world :=
  mkWorld [Exited 0 "/tmp/tmpa1.dump" EmptyString;
           Exited 0 EmptyString EmptyString;
           Exited 0 EmptyString EmptyString;
           Exited 0 EmptyString EmptyString;
           Garbled 1 EmptyString latin1_complaint utf8_codec_error]
          Interrupted [] 0 0 false.

(** What holds of every exchange of [restore_database]: a temporary
    file holds the dump it was given, a [pg_restore] is the one built from
    its arguments, and nothing is dumped. *)
Definition restore_step (pod ns c db dump user : string) (clean : bool)
    (x : action * reply) : Prop :=
  (forall suffix data, fst x = TmpWrite suffix data -> data = dump)
  /\ (remote_tool (fst x) = Some "pg_restore" ->
      fst x = Run (Migrate.kubectl_exec_argv pod ns c
                     (Migrate.restore_cmd db user clean)) None)
  /\ remote_tool (fst x) <> Some "pg_dump".

(** An exchange that writes no temporary file and neither dumps nor
    restores. *)
Definition plain_step (x : action * reply) : Prop :=
  (forall suffix data, fst x <> TmpWrite suffix data)
  /\ remote_tool (fst x) <> Some "pg_restore"
  /\ remote_tool (fst x) <> Some "pg_dump".

Definition garbled_grant_args : Migrate.args :=
  Migrate.mkArgs "alpha" "alpha" "homelab" "postgres" false.

(** Everything up to the restore succeeds, and the permission script
    fails with a complaint in Latin-1. *)
Definition garbled_grant : world :=
  fresh [Exited 0 "Running" EmptyString; Exited 0 "Running" EmptyString;
         Exited 0 "1" EmptyString; Exited 0 "1" EmptyString;
         Exited 0 "PGDMP" EmptyString;
         Exited 0 "/tmp/tmpa1.dump" EmptyString;
         Exited 0 EmptyString EmptyString;
         Exited 0 EmptyString EmptyString;
         Exited 0 EmptyString EmptyString;
         Exited 0 EmptyString EmptyString;
         Garbled 3 EmptyString latin1_complaint utf8_codec_error]
        Interrupted 0 0.

Definition stream_eqb (s1 s2 : stream) : bool :=
  match s1, s2 with
  | Out, Out | Err, Err => true
  | _, _ => false
  end.

(** Is this event the print [Print s msg]? *)
Definition is_print (s : stream) (msg : string) (e : event) : bool :=
  match e with
  | Print s' msg' => stream_eqb s s' && (msg =? msg')%string
  | Did _ _ => false
  end.
(** ** Proof tools *)

Arguments PyStr.strip : simpl never.
Arguments PyStr.contains : simpl never.
Arguments PyStr.int : simpl never.
Arguments PyStr.str_nat : simpl never.
Arguments PyStr.str_Z : simpl never.
Arguments PyStr.join : simpl never.
Arguments PyStr.unlines : simpl never.
Arguments PyStr.rstrip_slash : simpl never.
Arguments PyStr.repr : simpl never.
Arguments PyStr.repr_list : simpl never.
Arguments PyStr.int_error : simpl never.
Arguments str_exn : simpl never.
Arguments String.append : simpl never.
Arguments Sync.or_zero : simpl never.
Arguments last_action : simpl never.
Arguments Sync.counts_match : simpl never.
Arguments String.eqb : simpl nomatch.
Arguments String.length : simpl never.
Arguments Z.eqb : simpl nomatch.
Arguments Z.ltb : simpl nomatch.
Arguments Nat.ltb : simpl nomatch.
Arguments Nat.eqb : simpl nomatch.
Arguments Nat.sub : simpl nomatch.
Arguments Nat.add : simpl nomatch.

(** Evaluate the program text and the world, leaving the answers of the
    outside world, the string functions and the arithmetic alone. *)
Ltac eval_program :=
  lazy beta iota zeta delta
    [bind ret raise try_except try_finally perform ask print time_time
     time_sleep subprocess_run os_unlink write_temp_file sys_exit
     set_pod_created get_pod_created fresh next_reply
     Migrate.run_kubectl_exec Migrate.check_pod_exists
     Migrate.check_database_exists Migrate.dump_database
     Migrate.fix_database_permissions Migrate.restore_database Migrate.main
     Migrate.entry Migrate.truthy
     Sync.run_kubectl Sync.check_pvc_exists
     Sync.check_host_path_exists_on_node Sync.poll_once Sync.delete_pod
     Sync.py_int Sync.sync_data_from_host Sync.main
     script fallback trace now latency pod_created
     is_CalledProcessError is_OSError is_Exception cost negb andb fst snd].

(** The same, also reading the replies the script spells out and the
    status [0] tested against [0]. *)
Ltac step :=
  eval_program;
  repeat (progress (cbn [hd tl]; try change (0 =? 0)%Z with true);
          eval_program).

(** Split on the next reply of the script. *)
Ltac on_reply :=
  match goal with
  | |- context [hd ?fb ?s] =>
      let E := fresh "Hreply" in
      destruct (hd fb s) as [? ? ? | ? ? ? ? |] eqn:E; step
  end.

(** Split on the exit status the program has just tested. *)
Ltac on_status :=
  match goal with
  | |- context [(?rc =? 0)%Z] =>
      let E := fresh "Hrc" in
      destruct (rc =? 0)%Z eqn:E; step
  end.

(** Split on a test the program makes on what it has read. *)
Ltac on_test :=
  match goal with
  | |- context [String.eqb ?a ?a] => rewrite (String.eqb_refl a); step
  | |- context [PyStr.contains ?a ?b] =>
      let E := fresh "Htest" in destruct (PyStr.contains a b) eqn:E; step
  | |- context [String.eqb ?a ?b] =>
      let E := fresh "Htest" in destruct (String.eqb a b) eqn:E; step
  | |- context [Nat.eqb ?a ?b] =>
      let E := fresh "Htest" in destruct (Nat.eqb a b) eqn:E; step
  | |- context [Nat.ltb ?a ?b] =>
      let E := fresh "Htest" in destruct (Nat.ltb a b) eqn:E; step
  | |- context [PyStr.int ?a] =>
      let E := fresh "Htest" in destruct (PyStr.int a) eqn:E; step
  | |- context [Z.ltb ?a ?b] =>
      let E := fresh "Htest" in destruct (Z.ltb a b) eqn:E; step
  | |- context [Z.eqb ?a ?b] =>
      let E := fresh "Htest" in destruct (Z.eqb a b) eqn:E; step
  | |- context [Migrate.clean ?a] =>
      let E := fresh "Hclean" in destruct (Migrate.clean a) eqn:E; step
  | |- context [Sync.dry_run ?a] =>
      let E := fresh "Hdry" in destruct (Sync.dry_run a) eqn:E; step
  | |- context [Sync.verify ?a] =>
      let E := fresh "Hverify" in destruct (Sync.verify a) eqn:E; step
  end.

(** Follow every path the program can take from here. *)
Ltac explore := step; repeat first [on_reply | on_status | on_test].

(** Rewrite with the tests the path has decided. *)
Ltac decided :=
  repeat match goal with
         | H : ?t = true |- context [?t] => rewrite H
         | H : ?t = false |- context [?t] => rewrite H
         end.

(** The trace grew by what the goal leaves open. *)
Ltac trace_grows :=
  cbn [fst snd trace pod_created]; subst;
  repeat rewrite <- app_assoc;
  first [ reflexivity | rewrite <- app_nil_r at 1; reflexivity ].
(** ** Facts about [strip] *)

Section Strip.

Variable p : ascii -> bool.

Lemma rstrip_by_idempotent (s : string) :
  PyStr.rstrip_by p (PyStr.rstrip_by p s) = PyStr.rstrip_by p s.
Proof.
  induction s as [| c s IH]; [reflexivity |].
  simpl. destruct (PyStr.rstrip_by p s) as [| d r] eqn:E.
  - destruct (p c) eqn:Hc; simpl; [reflexivity | now rewrite Hc].
  - change (PyStr.rstrip_by p (String c (String d r))) with
      (match PyStr.rstrip_by p (String d r) with
       | EmptyString => if p c then EmptyString else String c EmptyString
       | String a b => String c (String a b)
       end).
    now rewrite IH.
Qed.

(** [rstrip_by] keeps the first character when [p] rejects it. *)
Lemma rstrip_by_head (c : ascii) (s : string) :
  p c = false -> exists r, PyStr.rstrip_by p (String c s) = String c r.
Proof.
  intros Hc. simpl. destruct (PyStr.rstrip_by p s).
  - rewrite Hc. now exists EmptyString.
  - eexists. reflexivity.
Qed.

End Strip.

Lemma lstrip_starts_unspaced (s : string) : starts_unspaced (PyStr.lstrip s).
Proof.
  induction s as [| c s IH]; simpl; [exact I |].
  destruct (PyStr.isspace c) eqn:E; [exact IH | exact E].
Qed.

Lemma lstrip_fixed (s : string) : starts_unspaced s -> PyStr.lstrip s = s.
Proof.
  destruct s as [| c s]; simpl; [reflexivity |]. now intros ->.
Qed.

Lemma rstrip_starts_unspaced (s : string) :
  starts_unspaced s -> starts_unspaced (PyStr.rstrip s).
Proof.
  destruct s as [| c s]; [intros _; exact I |].
  intros Hc. destruct (rstrip_by_head PyStr.isspace c s Hc) as [r Hr].
  unfold PyStr.rstrip. rewrite Hr. exact Hc.
Qed.

Lemma strip_idempotent (s : string) :
  PyStr.strip (PyStr.strip s) = PyStr.strip s.
Proof.
  unfold PyStr.strip.
  rewrite (lstrip_fixed (PyStr.rstrip (PyStr.lstrip s))).
  - apply rstrip_by_idempotent.
  - apply rstrip_starts_unspaced, lstrip_starts_unspaced.
Qed.

Lemma int_strip (s : string) : PyStr.int (PyStr.strip s) = PyStr.int s.
Proof.
  unfold PyStr.int, PyStr.int_literal. now rewrite strip_idempotent.
Qed.

(** ** Reading traces *)

Lemma effects_app (l1 l2 : list event) :
  effects (l1 ++ l2) = (effects l1 ++ effects l2)%list.
Proof.
  induction l1 as [| [a r | s m] l1 IH]; simpl; [reflexivity | | exact IH].
  now rewrite IH.
Qed.

Lemma actions_app (l1 l2 : list event) :
  actions (l1 ++ l2) = (actions l1 ++ actions l2)%list.
Proof. unfold actions. now rewrite effects_app, map_app. Qed.

Lemma deletions_app (l1 l2 : list event) :
  deletions (l1 ++ l2) = (deletions l1 + deletions l2)%nat.
Proof.
  unfold deletions. now rewrite actions_app, filter_app, length_app.
Qed.

Lemma next_after_spec {X} (P : X -> Prop) (Q : X -> X -> Prop) (l : list X) :
  next_after P Q l ->
  forall pre x post, l = (pre ++ x :: post)%list -> P x ->
  exists y post', post = y :: post' /\ Q x y.
Proof.
  induction l as [| a l IH]; intros H pre x post Hl Hp.
  - now destruct pre.
  - destruct H as [Ha Hrest].
    destruct pre as [| b pre]; simpl in Hl; injection Hl as -> ->.
    + specialize (Ha Hp). destruct post as [| y post']; [contradiction |].
      now exists y, post'.
    + now apply (IH Hrest pre x post).
Qed.
(** ** The precondition probes *)

(** What [check_database_exists] answers for any finished probe. *)
Lemma check_database_exists_value (pod ns c db user : string) (w : world)
    (rc : Z) (out err : string) :
  next_reply w = Exited rc out err ->
  fst (Migrate.check_database_exists pod ns c db user w)
  = Val ((rc =? 0) && (PyStr.strip out =? "1")%string).
Proof.
  destruct w as [sc fb tr t l pc]. unfold next_reply. cbn [script fallback].
  intros Hr. step. rewrite Hr. step.
  destruct (rc =? 0); reflexivity.
Qed.

(** [check_database_exists] on a probe whose output is text. *)
Lemma check_database_exists_false (pod ns c db user : string)
    (w : world) (rc : Z) (out err : string) :
  next_reply w = Exited rc out err ->
  rc <> 0 \/ PyStr.strip out <> "1" ->
  fst (Migrate.check_database_exists pod ns c db user w) = Val false.
Proof.
  intros Hr Hc.
  rewrite (check_database_exists_value _ _ _ _ _ _ _ _ _ Hr).
  destruct Hc as [Hc | Hc].
  - apply Z.eqb_neq in Hc. now rewrite Hc.
  - apply String.eqb_neq in Hc. rewrite Hc. now rewrite andb_false_r.
Qed.

(** C5, as stated, fails when the failing probe prints bytes that are not
    text in the locale's encoding: [check_database_exists] does not return
    [False] but raises [UnicodeDecodeError]. *)
Lemma check_database_exists_raises_on_garbled_output :
  next_reply garbled_probe
  = Garbled 2 EmptyString latin1_complaint utf8_codec_error
  /\ fst (Migrate.check_database_exists "postgres-statefulset-0" "shared"
            "postgres" "alpha" "postgres" garbled_probe)
     = Raise (UnicodeDecodeError utf8_codec_error)
  /\ fst (Migrate.check_database_exists "postgres-statefulset-0" "shared"
            "postgres" "alpha" "postgres" garbled_probe)
     <> Val false.
Proof. repeat split. discriminate. Qed.

(** C5, amended: for every database name and role,
    [check_database_exists] returns [False] when the probe's output is
    text and either the catalog lookup prints no row for the name or the
    probe exits with a non-zero status; it never hands the probe's
    [CalledProcessError] to the caller; and when the probe's output does
    not decode it raises [UnicodeDecodeError]. *)
Theorem check_database_exists_fail_closed (pod ns c db user : string)
    (w : world) :
  let r := fst (Migrate.check_database_exists pod ns c db user w) in
  (forall rc out err,
      next_reply w = Exited rc out err ->
      rc <> 0 \/ PyStr.strip out <> "1" ->
      r = Val false)
  /\ (forall cmd rc out err, r <> Raise (CalledProcessError cmd rc out err))
  /\ (forall rc out err why,
         next_reply w = Garbled rc out err why ->
         r = Raise (UnicodeDecodeError why)).
Proof.
  cbn zeta. split; [| split].
  - intros rc out err. apply check_database_exists_false.
  - intros cmd rc out err. destruct w as [sc fb tr t l flag]. explore.
    all: discriminate.
  - intros rc out err why. destruct w as [sc fb tr t l flag].
    unfold next_reply. cbn [script fallback]. intros Hr.
    step. rewrite Hr. reflexivity.
Qed.

Lemma check_database_exists_fail_closed_witness :
  fst (Migrate.check_database_exists "postgres-statefulset-0" "shared" "postgres"
         "alpha" "postgres"
         (fresh [Exited 2 EmptyString "psql: connection refused"]
                Interrupted 0 0))
  = Val false.
Proof.
  apply (proj1 (check_database_exists_fail_closed "postgres-statefulset-0"
                  "shared" "postgres" "alpha" "postgres"
                  (fresh [Exited 2 EmptyString "psql: connection refused"]
                         Interrupted 0 0))
           2 EmptyString "psql: connection refused").
  - reflexivity.
  - left. lia.
Defined.

(** [check_host_path_exists_on_node] runs the test with [check=False], so
    no exit status of the test reaches its [except] clause. *)
Lemma check_host_path_exists_on_node_any_status (host_path pod ns : string)
    (w : world) (rc : Z) (out err : string) :
  next_reply w = Exited rc out err ->
  fst (Sync.check_host_path_exists_on_node host_path pod ns w) = Val true.
Proof.
  destruct w as [sc fb tr t l pc]. unfold next_reply. cbn [script fallback].
  intros Hr. step. rewrite Hr. reflexivity.
Qed.

(** C4, at the failing input: the directory test fails inside the helper
    ([test -d /host-data] exits with status 1) and
    [check_host_path_exists_on_node] still returns [True]. *)
Theorem check_host_path_exists_on_node_failed_test :
  fst (Sync.check_host_path_exists_on_node "/srv/missing" "pvc-sync-data-1"
         "prod" (fresh [Exited 1 EmptyString EmptyString] Interrupted 0 0))
  = Val true.
Proof. reflexivity. Qed.

(** ** Verification of a sync *)

Lemma counts_match_spec (hc hs pc ps : Z) :
  Sync.counts_match hc hs pc ps = true <-> hc = pc /\ Z.abs (hs - ps) < 1024.
Proof.
  unfold Sync.counts_match. rewrite andb_true_iff, Z.eqb_eq, Z.ltb_lt.
  reflexivity.
Qed.

(** [verify_sync] when its four queries succeed and print numbers. *)
Lemma verify_sync_value (host_path pod ns : string) (w : world)
    (o1 o2 o3 o4 e1 e2 e3 e4 : string) (rest : list reply) (hc hs pc ps : Z) :
  script w = Exited 0 o1 e1 :: Exited 0 o2 e2 :: Exited 0 o3 e3
             :: Exited 0 o4 e4 :: rest ->
  PyStr.int o1 = Some hc ->
  PyStr.int (Sync.or_zero (PyStr.strip o2)) = Some hs ->
  PyStr.int o3 = Some pc ->
  PyStr.int (Sync.or_zero (PyStr.strip o4)) = Some ps ->
  fst (Sync.verify_sync host_path pod ns w)
  = Val (Sync.counts_match hc hs pc ps).
Proof.
  destruct w as [sc fb tr t l flag]. cbn [script].
  intros Hs H1 H2 H3 H4. lazy beta iota zeta delta [Sync.verify_sync]. step.
  rewrite Hs. step.
  rewrite strip_idempotent, int_strip, H1. step.
  rewrite strip_idempotent, H2. step.
  rewrite strip_idempotent, int_strip, H3. step.
  rewrite strip_idempotent, H4. step.
  destruct (hc =? pc); step; destruct (Z.abs (hs - ps) <? 1024); reflexivity.
Qed.

(** C6: when the four queries of [verify_sync] succeed, it returns [True]
    exactly when the host file count equals the volume file count and the
    absolute difference of the byte sizes is below 1024; so equal counts
    and equal sizes give [True], and a volume with one file fewer gives
    [False]. *)
Theorem verify_sync_match_predicate (host_path pod ns : string) (w : world)
    (o1 o2 o3 o4 e1 e2 e3 e4 : string) (rest : list reply) (hc hs pc ps : Z) :
  script w = Exited 0 o1 e1 :: Exited 0 o2 e2 :: Exited 0 o3 e3
             :: Exited 0 o4 e4 :: rest ->
  PyStr.int o1 = Some hc ->
  PyStr.int (Sync.or_zero (PyStr.strip o2)) = Some hs ->
  PyStr.int o3 = Some pc ->
  PyStr.int (Sync.or_zero (PyStr.strip o4)) = Some ps ->
  exists b : bool,
    fst (Sync.verify_sync host_path pod ns w) = Val b
    /\ (b = true <-> hc = pc /\ Z.abs (hs - ps) < 1024)
    /\ (hc = pc -> hs = ps -> b = true)
    /\ (pc = hc - 1 -> b = false).
Proof.
  intros Hs H1 H2 H3 H4. exists (Sync.counts_match hc hs pc ps).
  split; [now apply verify_sync_value with o1 o2 o3 o4 e1 e2 e3 e4 rest |].
  split; [apply counts_match_spec |].
  split.
  - intros -> ->. apply counts_match_spec. split; [reflexivity | lia].
  - intros ->. unfold Sync.counts_match.
    replace (hc =? hc - 1) with false; [reflexivity |].
    symmetry. apply Z.eqb_neq. lia.
Qed.

Lemma verify_sync_match_predicate_witness :
  exists b : bool,
    fst (Sync.verify_sync "/srv/data" "pvc-sync-data-1" "prod"
           (fresh [Exited 0 "12" EmptyString; Exited 0 "4096" EmptyString;
                   Exited 0 "11" EmptyString; Exited 0 "4000" EmptyString]
                  Interrupted 0 0)) = Val b
    /\ (b = true <-> 12 = 11 /\ Z.abs (4096 - 4000) < 1024)
    /\ (12 = 11 -> 4096 = 4000 -> b = true)
    /\ (11 = 12 - 1 -> b = false).
Proof.
  apply (verify_sync_match_predicate _ _ _ _ "12" "4096" "11" "4000"
           EmptyString EmptyString EmptyString EmptyString []);
    reflexivity.
Defined.

(** ** The database migration *)

(** Decide one element of [next_after] on an explicit trace. *)
Ltac next_after_cases :=
  cbn [next_after fst snd]; repeat split;
  try (let H := fresh in
       intros H; try discriminate H;
       injection H as ?; subst; reflexivity).

(** Follow the program over answers that are spelt out only as
    variables. *)
Ltac on_answer :=
  match goal with
  | |- context [match ?r with Exited _ _ _ => _ | Garbled _ _ _ _ => _
                            | Interrupted => _ end] =>
      is_var r; destruct r as [? ? ? | ? ? ? ? |]; step
  end.

Ltac on_flag :=
  match goal with
  | |- context [if ?b then _ else _] => is_var b; destruct b; step
  end.

Ltac explore_answers :=
  step; repeat first [on_answer | on_reply | on_status | on_test | on_flag].

(** Turn the decided status tests into equations. *)
Ltac statuses :=
  repeat match goal with
         | H : (_ =? 0) = true |- _ => apply Z.eqb_eq in H; subst
         | H : (_ =? 0) = false |- _ => apply Z.eqb_neq in H
         end.

(** C8, as stated, fails when the remote [rm] fails and complains in bytes
    that are not text: the restore has succeeded, and the failure of the
    deletion is not ignored but ends [restore_database] with
    [UnicodeDecodeError]. *)
Lemma restore_database_raises_on_garbled_rm :
  let r := Migrate.restore_database "postgres-statefulset-0" "shared"
             "postgres" "alpha" "PGDMP" "postgres" false garbled_rm in
  existsb (is_print Out "Successfully restored database 'alpha'.")
          (trace (snd r)) = true
  /\ fst r = Raise (UnicodeDecodeError utf8_codec_error).
Proof. vm_compute. split; reflexivity. Qed.

(** C8, amended.  Once the temporary file is written, [restore_database]
    copies it into the pod and, whatever the copy answers, unlinks it
    right after; when the copy succeeded and the unlink was not
    interrupted, it starts [pg_restore] and, whatever that answers, runs
    [rm /tmp/dump.dump] in the pod right after; a non-zero exit status of
    either deletion is ignored: after a successful restore the function
    returns normally, after a failed one it raises the restore's error;
    output of the remote [rm] that does not decode raises
    [UnicodeDecodeError]. *)
Theorem restore_database_cleans_up (pod ns c db dump user : string)
    (clean : bool) (path e1 : string) (copied unlinked restored removed : reply)
    (rest : list reply) (fb : reply) (t l : nat) (pc : bool) :
  let r := Migrate.restore_database pod ns c db dump user clean
             (mkWorld (Exited 0 path e1 :: copied :: unlinked :: restored
                       :: removed :: rest) fb [] t l pc) in
  let acts := effects (trace (snd r)) in
  let copy :=
    Run ["kubectl"; "cp"; path; ns ++ "/" ++ pod ++ ":/tmp/dump.dump"; "-c"; c]
        None in
  let restore_argv :=
    (["kubectl"; "exec"; "-n"; ns; pod; "-c"; c; "--";
      "pg_restore"; "-U"; user; "-d"; db; "-v"; "--no-owner"; "--no-acl"]
     ++ (if clean then ["--clean"] else []) ++ ["/tmp/dump.dump"])%list in
  let restore := Run restore_argv None in
  let remove :=
    Run ["kubectl"; "exec"; "-n"; ns; pod; "-c"; c; "--"; "rm"; "/tmp/dump.dump"]
        None in
  let transfer :=
    [(TmpWrite ".dump" dump, Exited 0 path e1); (copy, copied);
     (Unlink path, unlinked)] in
  firstn 3 acts = transfer
  /\ (status_of copied <> Some 0 -> acts = transfer)
  /\ (status_of copied = Some 0 -> unlinked <> Interrupted ->
      acts = (transfer ++ [(restore, restored); (remove, removed)])%list)
  /\ (forall o4 e4 rcr o5 e5,
         status_of copied = Some 0 -> unlinked <> Interrupted ->
         restored = Exited 0 o4 e4 -> removed = Exited rcr o5 e5 ->
         fst r = Val tt)
  /\ (forall rc o4 e4 rcr o5 e5,
         status_of copied = Some 0 -> unlinked <> Interrupted ->
         restored = Exited rc o4 e4 -> rc <> 0 ->
         removed = Exited rcr o5 e5 ->
         fst r = Raise (CalledProcessError restore_argv rc o4 e4))
  /\ (forall o4 e4 rcr o5 e5 why,
         status_of copied = Some 0 -> unlinked <> Interrupted ->
         restored = Exited 0 o4 e4 -> removed = Garbled rcr o5 e5 why ->
         fst r = Raise (UnicodeDecodeError why)).
Proof.
  cbn zeta. explore_answers.
  all: statuses; cbn [effects app firstn status_of].
  all: repeat split; intros; subst; try congruence.
  all: repeat match goal with
              | H : Exited _ _ _ = Exited _ _ _ |- _ =>
                  injection H as ? ? ?; subst
              | H : Garbled _ _ _ _ = Garbled _ _ _ _ |- _ =>
                  injection H as ? ? ? ?; subst
              end.
  all: try congruence; reflexivity.
Qed.

Lemma restore_database_cleans_up_witness :
  let r := Migrate.restore_database "postgres-statefulset-0" "shared" "postgres"
             "alpha" "PGDMP" "postgres" true
             (mkWorld [Exited 0 "/tmp/tmpa1.dump" EmptyString;
                       Exited 0 EmptyString EmptyString;
                       Exited 1 EmptyString "No such file or directory";
                       Exited 1 EmptyString "pg_restore: error";
                       Exited 1 EmptyString "rm: cannot remove"]
                      Interrupted [] 0 0 false) in
  map fst (effects (trace (snd r)))
  = [TmpWrite ".dump" "PGDMP";
     Run ["kubectl"; "cp"; "/tmp/tmpa1.dump";
          "shared/postgres-statefulset-0:/tmp/dump.dump"; "-c"; "postgres"] None;
     Unlink "/tmp/tmpa1.dump";
     Run ["kubectl"; "exec"; "-n"; "shared"; "postgres-statefulset-0"; "-c";
          "postgres"; "--"; "pg_restore"; "-U"; "postgres"; "-d"; "alpha";
          "-v"; "--no-owner"; "--no-acl"; "--clean"; "/tmp/dump.dump"] None;
     Run ["kubectl"; "exec"; "-n"; "shared"; "postgres-statefulset-0"; "-c";
          "postgres"; "--"; "rm"; "/tmp/dump.dump"] None].
Proof.
  cbn zeta.
  rewrite (proj1 (proj2 (proj2
             (restore_database_cleans_up "postgres-statefulset-0" "shared"
                "postgres" "alpha" "PGDMP" "postgres" true "/tmp/tmpa1.dump"
                EmptyString (Exited 0 EmptyString EmptyString)
                (Exited 1 EmptyString "No such file or directory")
                (Exited 1 EmptyString "pg_restore: error")
                (Exited 1 EmptyString "rm: cannot remove")
                [] Interrupted 0%nat 0%nat false)))).
  - reflexivity.
  - reflexivity.
  - discriminate.
Defined.

(** ** Whole runs of the migration *)

(** What the two last steps of [main] exchange with the world. *)
Ltac step_facts :=
  cbn [app effects]; repeat rewrite effects_app; cbn [app effects];
  repeat first
    [ apply Forall_nil
    | apply Forall_cons;
      [ repeat split; cbn;
        first [ discriminate
              | intros; discriminate
              | intros ? ? H; injection H as ? ?; subst; reflexivity
              | reflexivity ]
      | ]
    | apply Forall_app; split ].

Lemma restore_database_steps (pod ns c db dump user : string) (clean : bool)
    (w : world) :
  let r := Migrate.restore_database pod ns c db dump user clean w in
  exists evs : list event,
    trace (snd r) = (trace w ++ evs)%list
    /\ Forall (restore_step pod ns c db dump user clean) (effects evs).
Proof.
  destruct w as [sc fb tr t l flag]. cbn zeta.
  step; repeat first [on_reply | on_status | on_test | on_flag].
  all: eexists; split; [trace_grows | step_facts].
Qed.

Lemma fix_database_permissions_steps (pod ns c db db_user user : string)
    (w : world) :
  let r := Migrate.fix_database_permissions pod ns c db db_user user w in
  exists evs : list event,
    trace (snd r) = (trace w ++ evs)%list
    /\ Forall plain_step (effects evs).
Proof.
  destruct w as [sc fb tr t l flag]. cbn zeta. explore.
  all: eexists; split; [trace_grows | step_facts].
Qed.

(** Follow [entry] up to the restore, and meet the two last steps of
    [main] with what is known of them. *)
Ltac call_restore :=
  match goal with
  | |- context [Migrate.restore_database ?p ?n ?c ?db ?d ?u ?cl ?W] =>
      destruct (restore_database_steps p n c db d u cl W)
        as (evs & Htr & Hsteps);
      destruct (Migrate.restore_database p n c db d u cl W)
        as [[[] | e |] [sc' fb' tr' t' l' flag']];
      cbn [fst snd trace] in Htr; subst tr';
      [ | destruct e | ]
  end.

Ltac call_fix :=
  match goal with
  | |- context [Migrate.fix_database_permissions ?p ?n ?c ?db ?du ?u ?W] =>
      destruct (fix_database_permissions_steps p n c db du u W)
        as (evs2 & Htr2 & Hsteps2);
      destruct (Migrate.fix_database_permissions p n c db du u W)
        as [[[] | e |] [sc2 fb2 tr2 t2 l2 flag2]];
      cbn [fst snd trace] in Htr2; subst tr2;
      [ | destruct e | ]
  end.

(** [step] with the two last steps of [main] left folded. *)
Ltac eval_entry :=
  lazy beta iota zeta delta
    [bind ret raise try_except try_finally perform ask print time_time
     subprocess_run sys_exit fresh next_reply
     Migrate.run_kubectl_exec Migrate.check_pod_exists
     Migrate.check_database_exists Migrate.dump_database Migrate.main
     Migrate.entry Migrate.truthy
     script fallback trace now latency pod_created
     is_CalledProcessError is_OSError is_Exception cost negb andb fst snd].

Ltac step_entry :=
  eval_entry;
  repeat (progress (cbn [hd tl]; try change (0 =? 0)%Z with true);
          eval_entry).

Ltac on_reply_entry :=
  match goal with
  | |- context [hd ?fb ?s] =>
      let E := fresh "Hreply" in
      destruct (hd fb s) as [? ? ? | ? ? ? ? |] eqn:E; step_entry
  end.

Ltac on_test_entry :=
  match goal with
  | |- context [String.eqb ?a ?a] => rewrite (String.eqb_refl a); step_entry
  | |- context [PyStr.contains ?a ?b] =>
      let E := fresh "Htest" in destruct (PyStr.contains a b) eqn:E; step_entry
  | |- context [String.eqb ?a ?b] =>
      let E := fresh "Htest" in destruct (String.eqb a b) eqn:E; step_entry
  | |- context [Nat.eqb ?a ?b] =>
      let E := fresh "Htest" in destruct (Nat.eqb a b) eqn:E; step_entry
  | |- context [(?rc =? 0)%Z] =>
      let E := fresh "Hrc" in destruct (rc =? 0)%Z eqn:E; step_entry
  end.

Ltac entry_paths :=
  step_entry; repeat first [on_reply_entry | on_test_entry];
  try (call_restore; step_entry; try (call_fix; step_entry)).

(** Go through the exchanges of a run: those the path spells out, and
    those of the two last steps. *)
Ltac members H :=
  repeat rewrite effects_app in H; cbn [In effects app map fst snd] in H;
  repeat rewrite in_app_iff in H; cbn [In] in H;
  repeat match type of H with
         | _ \/ _ => destruct H as [H | H]
         | False => contradiction
         end.

Ltac known_step H :=
  match goal with
  | Hs : Forall (restore_step _ _ _ _ _ _ _) (effects ?evs),
    H' : In _ (effects ?evs) |- _ =>
      constr_eq H H';
      let R := fresh "Hstep" in
      pose proof (proj1 (Forall_forall _ _) Hs _ H') as R;
      destruct R as (Hwrite & Hrestore & Hdump)
  | Hs : Forall plain_step (effects ?evs), H' : In _ (effects ?evs) |- _ =>
      constr_eq H H';
      let R := fresh "Hstep" in
      pose proof (proj1 (Forall_forall _ _) Hs _ H') as R;
      destruct R as (Hwrite & Hrestore & Hdump)
  end.

(** C3: in every run of the migration script, every [pg_restore] started
    in a pod is the destination's, with the role after [-U], the database
    after [-d], then switches and the dump file; [--no-owner] and
    [--no-acl] are among the switches, and [--clean] is among them exactly
    when the [--clean] option was given. *)
Theorem restore_switches (a : Migrate.args) (sc : list reply) (fb : reply)
    (t l : nat) (x : action * reply) :
  In x (effects (trace (snd (Migrate.entry a (fresh sc fb t l))))) ->
  remote_tool (fst x) = Some "pg_restore" ->
  exists switches : list string,
    fst x = dest_exec (["pg_restore"; "-U"; Migrate.dest_user a;
                        "-d"; Migrate.dest_db a]
                       ++ switches ++ ["/tmp/dump.dump"])
    /\ In "--no-owner" switches
    /\ In "--no-acl" switches
    /\ (In "--clean" switches <-> Migrate.clean a = true).
Proof.
  destruct x as [act ans]. unfold dest_exec. entry_paths.
  all: intros Hin Htool; members Hin; try known_step Hin.
  all: try (injection Hin as <- <-; cbn in Htool; discriminate Htool).
  all: cbn [fst] in *; try contradiction.
  all: rewrite (Hrestore Htool); destruct (Migrate.clean a) eqn:Hclean;
    [ exists ["-v"; "--no-owner"; "--no-acl"; "--clean"]
    | exists ["-v"; "--no-owner"; "--no-acl"] ].
  all: cbn; repeat split; auto 6; try discriminate.
  all: intros H; repeat destruct H as [H | H]; try discriminate H; contradiction.
Qed.

(** C2: in every run of the migration script, the payload written for the
    restore step is never empty; and when [pg_dump] printed nothing the run
    ends with exit status 1 after the five read-only commands, the dump
    being the last thing it did. *)
Theorem empty_dump_aborts (a : Migrate.args) (sc : list reply) (fb : reply)
    (t l : nat) :
  let r := Migrate.entry a (fresh sc fb t l) in
  let acts := effects (trace (snd r)) in
  (forall suffix data rp, In (TmpWrite suffix data, rp) acts ->
                          data <> EmptyString)
  /\ (forall x rc err,
         In x acts ->
         remote_tool (fst x) = Some "pg_dump" ->
         snd x = Exited rc EmptyString err ->
         fst r = Raise (SystemExit 1)
         /\ map fst acts = read_only_probes a).
Proof.
  unfold read_only_probes, source_exec, dest_exec. cbn zeta. entry_paths.
  all: split;
    [ intros suffix data rp Hin; members Hin; try known_step Hin;
      try discriminate Hin;
      first [ exfalso; eapply Hwrite; reflexivity
            | specialize (Hwrite _ _ eq_refl); subst data; intros ->;
              discriminate ]
    | intros [act ans] rc' err' Hin Htool Hx; members Hin;
      try known_step Hin; cbn [fst snd] in *; try contradiction;
      injection Hin as <- <-; cbn in Htool; try discriminate Htool;
      try discriminate Hx; injection Hx as ? ? ?; subst; try discriminate;
      split; reflexivity ].
Qed.

(** C9, as stated, fails when the permission script fails and complains
    in bytes that are not text: dump, transfer and restore have succeeded,
    and the run ends with exit status 1 without reporting success. *)
Lemma permission_failure_is_fatal_on_garbled_output :
  let r := Migrate.entry garbled_grant_args garbled_grant in
  existsb (is_print Out "Successfully restored database 'alpha'.")
          (trace (snd r)) = true
  /\ fst r = Raise (SystemExit 1)
  /\ exit_status (fst r) = Some 1
  /\ existsb (is_print Out "Migration completed successfully!")
             (trace (snd r)) = false.
Proof.
  vm_compute. repeat split.
Qed.

(** C9, amended.  When the two pods run, both databases exist, the dump
    is not empty, and the copy and the restore succeed: if the permission
    script exits with a non-zero status and its output is text, the run
    prints the warning on standard error, still prints that the migration
    completed, and ends with exit status 0; if its output does not decode,
    the run prints the codec's complaint as an error and ends with exit
    status 1. *)
Theorem permission_failure_is_warning (a : Migrate.args)
    (o1 e1 o2 e2 o3 e3 o4 e4 dump e5 path e6 o7 e7 ou eu o9 e9 orm erm
       : string)
    (rcu rcr : Z) (answer : reply) (rest : list reply) (fb : reply)
    (t l : nat) :
  PyStr.contains "Running" o1 = true ->
  PyStr.contains "Running" o2 = true ->
  PyStr.strip o3 = "1" ->
  PyStr.strip o4 = "1" ->
  dump <> EmptyString ->
  let r := Migrate.entry a
             (fresh (Exited 0 o1 e1 :: Exited 0 o2 e2 :: Exited 0 o3 e3
                     :: Exited 0 o4 e4 :: Exited 0 dump e5
                     :: Exited 0 path e6 :: Exited 0 o7 e7
                     :: Exited rcu ou eu :: Exited 0 o9 e9
                     :: Exited rcr orm erm :: answer :: rest)
                    fb t l) in
  (forall rc out err,
      answer = Exited rc out err -> rc <> 0 ->
      fst r = Val tt
      /\ exit_status (fst r) = Some 0
      /\ In (Print Err Migrate.fix_warning) (trace (snd r))
      /\ In (Print Out "Migration completed successfully!") (trace (snd r)))
  /\ (forall rc out err why,
         answer = Garbled rc out err why ->
         fst r = Raise (SystemExit 1)
         /\ exit_status (fst r) = Some 1
         /\ In (Print Err (PyStr.nl ++ PyStr.nl ++ "ERROR: " ++ why))
               (trace (snd r))
         /\ ~ In (Print Out "Migration completed successfully!")
                 (trace (snd r))).
Proof.
  intros H1 H2 H3 H4 Hdump.
  assert (Hlen : (String.length dump =? 0)%nat = false)
    by (destruct dump; [contradiction | reflexivity]).
  cbn zeta. step. rewrite H1. step.
  rewrite H2. step. rewrite H3, String.eqb_refl. step.
  rewrite H4, String.eqb_refl. step. rewrite Hlen. step.
  destruct (rcu =? 0); step;
    destruct (Migrate.clean a); step; step;
    destruct (rcr =? 0); step; step.
  all: destruct answer as [rc out err | rc out err why |]; step.
  all: split; [intros rc' out' err' Heq Hrc | intros rc' out' err' why' Heq];
    try discriminate Heq.
  all: try (injection Heq as <- <- <-; apply Z.eqb_neq in Hrc; rewrite Hrc;
            step; cbn; repeat split;
            repeat (first [left; reflexivity | right])).
  all: injection Heq as <- <- <- <-; cbn; repeat split;
    try (repeat (first [left; reflexivity | right])).
  all: intros Hin; repeat destruct Hin as [Hin | Hin];
    try discriminate Hin; contradiction.
Qed.

Lemma permission_failure_is_warning_witness :
  let r := Migrate.entry
             (Migrate.mkArgs "alpha" "alpha" "homelab" "postgres" false)
             (fresh [Exited 0 "Running" EmptyString; Exited 0 "Running" EmptyString;
                     Exited 0 "1" EmptyString; Exited 0 "1" EmptyString;
                     Exited 0 "PGDMP" EmptyString;
                     Exited 0 "/tmp/tmpa1.dump" EmptyString;
                     Exited 0 EmptyString EmptyString;
                     Exited 0 EmptyString EmptyString;
                     Exited 0 EmptyString EmptyString;
                     Exited 0 EmptyString EmptyString;
                     Exited 3 EmptyString "permission denied"]
                    Interrupted 0 0) in
  fst r = Val tt
  /\ exit_status (fst r) = Some 0
  /\ In (Print Err Migrate.fix_warning) (trace (snd r))
  /\ In (Print Out "Migration completed successfully!") (trace (snd r)).
Proof.
  refine (proj1 (permission_failure_is_warning
           (Migrate.mkArgs "alpha" "alpha" "homelab" "postgres" false)
           "Running" EmptyString "Running" EmptyString "1" EmptyString
           "1" EmptyString "PGDMP" EmptyString "/tmp/tmpa1.dump" EmptyString
           EmptyString EmptyString EmptyString EmptyString
           EmptyString EmptyString EmptyString EmptyString
           0 0 (Exited 3 EmptyString "permission denied") [] Interrupted
           0%nat 0%nat _ _ _ _ _) 3 EmptyString "permission denied" _ _).
  - reflexivity.
  - reflexivity.
  - reflexivity.
  - reflexivity.
  - discriminate.
  - reflexivity.
  - lia.
Defined.

Lemma restore_switches_witness :
  exists switches : list string,
    dest_exec (Migrate.restore_cmd "alpha" "postgres" true)
    = dest_exec (["pg_restore"; "-U"; "postgres"; "-d"; "alpha"]
                 ++ switches ++ ["/tmp/dump.dump"])
    /\ In "--no-owner" switches
    /\ In "--no-acl" switches
    /\ (In "--clean" switches <-> true = true).
Proof.
  apply (restore_switches demo_args demo_script Interrupted 0 0
           (dest_exec (Migrate.restore_cmd "alpha" "postgres" true),
            Exited 0 EmptyString EmptyString)).
  - vm_compute. do 8 right. left. reflexivity.
  - reflexivity.
Defined.
(** ** The volume sync: creating the helper *)

Lemma wait_ready_eq (fuel : nat) (pod ns : string) (start : nat) :
  Sync.wait_ready fuel pod ns start
  = (t <- time_time ;;
     if (t - start <? Sync.max_wait)%nat then
       match fuel with
       | O => fun w => (Fuel, w)
       | S fuel' =>
           v <- Sync.poll_once pod ns ;;
           match v with
           | Some b => ret b
           | None => time_sleep 2 ;; Sync.wait_ready fuel' pod ns start
           end
       end
     else
       print Err ("ERROR: Pod '" ++ pod ++ "' did not become ready within "
                  ++ PyStr.str_nat Sync.max_wait ++ " seconds") ;;
       ret false).
Proof. destruct fuel; reflexivity. Qed.

Ltac quiet_events :=
  cbn [app effects]; repeat rewrite effects_app; cbn [app effects];
  repeat first [ assumption
               | apply Forall_nil
               | apply Forall_cons; [vm_compute; auto |]
               | apply Forall_app; split ].

Lemma wait_ready_spec (fuel : nat) (pod ns : string) (start : nat) (w : world) :
  let r := Sync.wait_ready fuel pod ns start w in
  exists evs : list event,
    trace (snd r) = (trace w ++ evs)%list
    /\ pod_created (snd r) = pod_created w
    /\ Forall quiet (effects evs)
    /\ (fst r = Val true <-> existsb shows_running (effects evs) = true)
    /\ (forall code, fst r <> Raise (SystemExit code)).
Proof.
  revert w. induction fuel as [| fuel IH]; intros [sc fb tr t l flag];
    cbn zeta; rewrite wait_ready_eq; explore.
  all: try match goal with
       | |- context [Sync.wait_ready ?f ?p ?n ?s ?W] =>
           destruct (IH W) as (evs' & Htr & Hpc & Hq & Hrun & Hexit);
           destruct (Sync.wait_ready f p n s W) as [o [sc' fb' tr' t' l' flag']];
           cbn [fst snd trace pod_created] in *
       end.
  all: eexists; split; [trace_grows |]; split; [trace_grows |].
  all: split; [quiet_events |].
  all: split; [| first [exact Hexit | intros code; discriminate]].
  all: cbn [app effects]; repeat rewrite effects_app; cbn [app effects existsb];
    try rewrite Hrun.
  all: unfold shows_running, Sync.phase_cmd, is_phase_query; decided;
    cbn [andb orb existsb]; try tauto; try (split; [discriminate | discriminate]).
  all: try (split; [reflexivity | reflexivity]).
  all: try (rewrite ?andb_false_r; cbn [orb]; tauto).
Qed.

(** Every turn that goes on sleeps two seconds, so the loop returns
    before the fuel is used up. *)
Lemma wait_ready_terminates (fuel : nat) (pod ns : string) (start : nat)
    (w : world) :
  (Sync.max_wait <= (now w - start) + 2 * fuel)%nat ->
  (start <= now w)%nat ->
  fst (Sync.wait_ready fuel pod ns start w) <> Fuel.
Proof.
  revert w. induction fuel as [| fuel IH]; intros [sc fb tr t l flag];
    cbn [now]; intros Hfuel Hstart; rewrite wait_ready_eq; explore.
  all: try discriminate.
  all: first [ apply Nat.ltb_lt in Htest; lia | apply IH; cbn [now]; lia ].
Qed.

Ltac eval_create :=
  lazy beta iota zeta delta [Sync.create_temp_pod]; step.

Lemma create_temp_pod_spec (pvc ns pod hp : string) (w : world) :
  let r := Sync.create_temp_pod pvc ns pod hp w in
  exists evs : list event,
    trace (snd r) = (trace w ++ evs)%list
    /\ pod_created (snd r) = pod_created w
    /\ Forall quiet (effects evs)
    /\ (fst r = Val true -> existsb shows_running (effects evs) = true)
    /\ (fst r = Val true -> existsb apply_succeeded (effects evs) = true)
    /\ fst r <> Fuel
    /\ (forall code, fst r <> Raise (SystemExit code)).
Proof.
  destruct w as [sc fb tr t l flag]. cbn zeta. eval_create. explore.
  all: try match goal with
       | |- context [Sync.wait_ready ?f ?p ?n ?s ?W] =>
           pose proof (wait_ready_terminates f p n s W) as Hfuel;
           destruct (wait_ready_spec f p n s W)
             as (evs' & Htr & Hpc & Hq & Hrun & Hexit);
           destruct (Sync.wait_ready f p n s W)
             as [[b | e |] [sc' fb' tr' t' l' flag']];
           cbn [fst snd trace pod_created now] in *;
           [ | | exfalso; apply Hfuel;
                 [unfold Sync.max_wait, Sync.poll_fuel; lia | lia
                 | reflexivity] ];
           explore
       end.
  all: eexists; split; [trace_grows |]; split; [trace_grows |].
  all: split; [quiet_events |].
  all: cbn [app effects]; repeat rewrite effects_app;
    cbn [app effects existsb].
  all: repeat rewrite existsb_app; cbn [existsb].
  all: unfold shows_running, apply_succeeded, is_phase_query, is_apply;
    decided; cbn [andb orb].
  all: repeat split; try discriminate; try tauto; try assumption.
  all: rewrite ?orb_false_r; tauto.
Qed.

(** ** The volume sync: whole runs *)

Lemma quiet_deletions (evs : list event) :
  Forall quiet (effects evs) -> deletions evs = 0%nat.
Proof.
  unfold deletions, actions. induction (effects evs) as [| x l IH];
    intros H; [reflexivity |].
  inversion H as [| ? ? [Hd _] Hl]; subst. cbn [map filter].
  rewrite Hd. now apply IH.
Qed.

Lemma quiet_existsb (f : action * reply -> bool) (l : list (action * reply)) :
  (forall x, quiet x -> f x = false) ->
  Forall quiet l -> existsb f l = false.
Proof.
  intros Hf H. induction H as [| x l Hx _ IH]; [reflexivity |].
  cbn [existsb]. now rewrite (Hf x Hx), IH.
Qed.

Lemma quiet_bulk_copy (x : action * reply) : quiet x -> bulk_copy x = false.
Proof. now intros (_ & H & _). Qed.

Lemma quiet_dir_test (x : action * reply) : quiet x -> dir_test x = false.
Proof. now intros (_ & _ & H). Qed.

Lemma quiet_dir_test_passed (x : action * reply) :
  quiet x -> dir_test_passed x = false.
Proof.
  intros (_ & _ & H). destruct x as [a [rc out err | rc out err why |]];
    try reflexivity.
  cbn [fst] in H. unfold dir_test_passed. now rewrite H.
Qed.

Lemma quiet_dir_test_failed (x : action * reply) :
  quiet x -> dir_test_failed x = false.
Proof. intros (_ & _ & H). unfold dir_test_failed. now rewrite H. Qed.

Lemma quiet_bulk_copy_ok (x : action * reply) :
  quiet x -> bulk_copy_ok x = false.
Proof.
  intros (_ & H & _). destruct x as [a [rc out err | rc out err why |]];
    try reflexivity.
  cbn [fst] in H. unfold bulk_copy_ok. now rewrite H.
Qed.

Lemma guarded_app (ready tested : bool) (l1 l2 : list (action * reply)) :
  guarded ready tested (l1 ++ l2)
  = guarded ready tested l1
    && guarded (ready || existsb shows_running l1)
               (tested || existsb dir_test_passed l1) l2.
Proof.
  revert ready tested. induction l1 as [| x l1 IH]; intros ready tested.
  - cbn. now rewrite !orb_false_r.
  - cbn [app guarded existsb]. rewrite IH, !orb_assoc, andb_assoc. reflexivity.
Qed.

Lemma guarded_quiet (ready tested : bool) (l : list (action * reply)) :
  Forall quiet l -> guarded ready tested l = true.
Proof.
  intros H. revert ready tested.
  induction H as [| x l Hx _ IH]; intros ready tested; [reflexivity |].
  cbn [guarded]. now rewrite (quiet_bulk_copy x Hx), IH.
Qed.

Lemma guarded_sound (ready tested : bool) (l : list (action * reply)) :
  guarded ready tested l = true ->
  forall pre x post, l = (pre ++ x :: post)%list -> bulk_copy x = true ->
  ready || existsb shows_running pre = true
  /\ tested || existsb dir_test_passed pre = true.
Proof.
  intros H pre x post -> Hx. rewrite guarded_app in H.
  apply andb_true_iff in H. destruct H as [_ H]. cbn [guarded] in H.
  rewrite Hx in H. apply andb_true_iff in H. destruct H as [H _].
  now apply andb_true_iff in H.
Qed.

(** Meet the call of [create_temp_pod] with its specification. *)
Ltac call_create :=
  match goal with
  | |- context [Sync.create_temp_pod ?p ?n ?pod ?hp ?W] =>
      destruct (create_temp_pod_spec p n pod hp W)
        as (evs & Htr & Hpc & Hq & Hrun & Happly & Hfuel & Hexit);
      destruct (Sync.create_temp_pod p n pod hp W)
        as [[[|] | e |] [sc' fb' tr' t' l' flag']];
      cbn [fst snd trace pod_created] in *;
      [ | | destruct e; try (exfalso; eapply Hexit; reflexivity)
        | exfalso; apply Hfuel; reflexivity ];
      clear Hexit; subst tr' flag'
  end.

Ltac eval_verify :=
  lazy beta iota zeta delta [Sync.verify_sync]; step.

(** [verify_sync] only reads, and always comes back. *)
Lemma verify_sync_quiet (hp pod ns : string) (w : world) :
  let r := Sync.verify_sync hp pod ns w in
  exists evs : list event,
    trace (snd r) = (trace w ++ evs)%list
    /\ pod_created (snd r) = pod_created w
    /\ Forall quiet (effects evs)
    /\ fst r <> Fuel
    /\ (forall code, fst r <> Raise (SystemExit code)).
Proof.
  destruct w as [sc fb tr t l flag]. cbn zeta. eval_verify. explore.
  all: eexists; split; [trace_grows |]; split; [trace_grows |].
  all: split; [quiet_events | split; [| intros code]; discriminate].
Qed.

(** Meet the call of [verify_sync] with what is known of it. *)
Ltac call_verify :=
  match goal with
  | |- context [Sync.verify_sync ?hp ?pod ?ns ?W] =>
      destruct (verify_sync_quiet hp pod ns W)
        as (evs2 & Htr2 & Hpc2 & Hq2 & Hfuel2 & Hexit2);
      destruct (Sync.verify_sync hp pod ns W)
        as [[b | e |] [sc2 fb2 tr2 t2 l2 flag2]];
      cbn [fst snd trace pod_created] in *;
      [ | destruct e; try (exfalso; eapply Hexit2; reflexivity)
        | exfalso; apply Hfuel2; reflexivity ];
      clear Hexit2; subst tr2 flag2
  end.

(** Every path of [main]. *)
Ltac sync_paths :=
  explore; try (call_create; explore; try (call_verify; explore)).

(** Bring the exchanges of a trace into the form [x :: ... ++ ... :: []]. *)
Ltac list_form H :=
  repeat rewrite effects_app in H; cbn [effects app] in H;
  repeat first [ rewrite <- app_assoc in H
               | rewrite app_nil_r in H
               | progress cbn [app] in H ].

(** What is known of the exchanges of [create_temp_pod]. *)
Ltac quiet_facts :=
  repeat match goal with
      | Hq : Forall quiet (effects ?evs) |- _ =>
          pose proof (quiet_existsb bulk_copy _ quiet_bulk_copy Hq);
          pose proof (quiet_existsb dir_test _ quiet_dir_test Hq);
          pose proof (quiet_existsb dir_test_passed _ quiet_dir_test_passed Hq);
          pose proof (quiet_existsb dir_test_failed _ quiet_dir_test_failed Hq);
          pose proof (quiet_existsb bulk_copy_ok _ quiet_bulk_copy_ok Hq);
          pose proof (fun r t => guarded_quiet r t _ Hq);
          let HqX := fresh in
          pose proof (quiet_deletions _ Hq) as HqX;
          unfold deletions, actions in HqX;
          let Hkeep := fresh "Hquiet" in
          pose proof (Forall_impl (fun x => bulk_copy x = false)
                        quiet_bulk_copy Hq) as Hkeep;
          clear Hq
      end;
  try match goal with
      | H : Val true = Val true -> _ |- _ => specialize (H eq_refl)
      end;
  try match goal with
      | H : Val true = Val true -> _ |- _ => specialize (H eq_refl)
      end.

Lemma sync_script_wipes : PyStr.contains "rm -rf" Sync.sync_script = true.
Proof. reflexivity. Qed.

Lemma find_host_reads :
  PyStr.contains "rm -rf" ("find " ++ "/host-data" ++ " -type f | wc -l") = false.
Proof. reflexivity. Qed.

Lemma find_pvc_reads :
  PyStr.contains "rm -rf" ("find " ++ "/pvc-data" ++ " -type f | wc -l") = false.
Proof. reflexivity. Qed.

Lemma du_host_reads :
  PyStr.contains "rm -rf"
    ("du -sb " ++ "/host-data" ++ " 2>/dev/null | cut -f1 || echo 0") = false.
Proof. reflexivity. Qed.

Lemma du_pvc_reads :
  PyStr.contains "rm -rf"
    ("du -sb " ++ "/pvc-data" ++ " 2>/dev/null | cut -f1 || echo 0") = false.
Proof. reflexivity. Qed.

Lemma last_action_app (l : list (action * reply)) (x : action * reply)
    (rest : list (action * reply)) :
  last_action (l ++ x :: rest) = last_action (x :: rest).
Proof.
  unfold last_action. f_equal.
  induction l as [| y l IH]; [reflexivity |].
  cbn [app]. destruct (l ++ x :: rest)%list eqn:E.
  - now destruct l.
  - cbn [last] in *. exact IH.
Qed.

Lemma last_action_cons (y x : action * reply) (rest : list (action * reply)) :
  last_action (y :: x :: rest) = last_action (x :: rest).
Proof. reflexivity. Qed.

Lemma last_action_cons_app (y : action * reply) (l : list (action * reply))
    (x : action * reply) (rest : list (action * reply)) :
  last_action (y :: l ++ x :: rest) = last_action (x :: rest).
Proof. exact (last_action_app (y :: l) x rest). Qed.

Lemma last_action_one (x : action * reply) : last_action [x] = fst x.
Proof. reflexivity. Qed.

(** Evaluate the recognisers over a list in list form. *)
Ltac recognise :=
  repeat first
    [ progress cbn
    | rewrite existsb_app
    | rewrite guarded_app
    | rewrite map_app
    | rewrite filter_app
    | rewrite length_app
    | rewrite last_action_cons_app
    | rewrite last_action_app
    | rewrite last_action_cons
    | rewrite last_action_one
    | progress rewrite ?sync_script_wipes, ?find_host_reads, ?find_pvc_reads,
        ?du_host_reads, ?du_pvc_reads
    | progress decided
    | match goal with
      | H : existsb _ (effects _) = _ |- _ => rewrite H
      | H : forall r t : bool, guarded r t (effects _) = true |- _ =>
          rewrite H
      | H : List.length (filter is_delete (map fst (effects _))) = _ |- _ =>
          rewrite H
      end ].

Ltac audit_members :=
  repeat first
    [ apply Forall_nil
    | apply Forall_cons;
      [ let H := fresh in
        intros H; cbv [bulk_copy] in H; cbn in H;
        rewrite ?sync_script_wipes, ?find_host_reads, ?find_pvc_reads,
          ?du_host_reads, ?du_pvc_reads in H;
        first [discriminate H | reflexivity]
      | ]
    | match goal with
      | Hq : Forall (fun x => bulk_copy x = false) ?E |- Forall _ ?E =>
          refine (Forall_impl _ _ Hq);
          let x := fresh in let Hx := fresh in let H := fresh in
          intros x Hx H; rewrite Hx in H; discriminate H
      end
    | apply Forall_app; split ].

Lemma main_audit (a : Sync.args) (sc : list reply) (fb : reply) (t l : nat) :
  let r := Sync.main a (fresh sc fb t l) in
  sync_audit a t l (fst r) (effects (trace (snd r))).
Proof.
  cbn zeta. sync_paths.
  all: match goal with
       | |- sync_audit _ _ _ _ ?E =>
           let acts := fresh "acts" in
           remember E as acts eqn:Hacts; list_form Hacts; subst acts
       end.
  all: quiet_facts.
  all: unfold sync_audit; cbn zeta; repeat apply conj.
  all: try discriminate.
  all: try (recognise;
            first [ reflexivity | discriminate
                  | intros _; reflexivity | intros H; discriminate H
                  | intros _; split; first [assumption | reflexivity] ]).
  all: try audit_members.
Qed.

(** ** The volume sync: the claims *)

(** C1, as stated, fails when [kubectl apply] is refused: the run is not a
    dry run, ends with exit status 1, and never calls [delete_pod]. *)
Lemma teardown_skipped_when_apply_fails :
  Sync.dry_run sample_sync_args = false
  /\ fst (Sync.main sample_sync_args apply_refused) = Raise (SystemExit 1)
  /\ deletions (trace (snd (Sync.main sample_sync_args apply_refused))) = 0%nat.
Proof. vm_compute. repeat split. Qed.

(** C1, amended: a run in which [create_temp_pod] returned [True], so that
    it went on to test the host path in the helper, deletes the helper pod
    exactly once, whichever later step fails or is interrupted; a run in
    which no [kubectl apply] succeeded never deletes a pod; and
    [delete_pod] returns normally whatever the exit status of the delete
    command. *)
Theorem teardown_once_after_creation (a : Sync.args) (sc : list reply)
    (fb : reply) (t l : nat) :
  let tr := trace (snd (Sync.main a (fresh sc fb t l))) in
  (existsb dir_test (effects tr) = true -> deletions tr = 1%nat)
  /\ (existsb apply_succeeded (effects tr) = false -> deletions tr = 0%nat)
  /\ (forall pod ns w rc out err,
         next_reply w = Exited rc out err ->
         fst (Sync.delete_pod pod ns w) = Val tt).
Proof.
  cbn zeta. destruct (main_audit a sc fb t l) as (Hdel & Happly & _).
  unfold deletions, actions. split; [| split].
  - intros H. now rewrite Hdel, H.
  - intros H. rewrite Hdel.
    destruct (existsb dir_test _) eqn:E; [| reflexivity].
    rewrite (Happly eq_refl) in H. discriminate H.
  - intros pod ns [sc' fb' tr' t' l' flag'] rc out err.
    unfold next_reply. cbn [script fallback]. intros Hr.
    step. rewrite Hr. step. destruct (rc =? 0); reflexivity.
Qed.

(** C7: in every run, a bulk copy comes after an exchange that showed the
    helper running and after a directory test that passed; it is the
    script of [sync_cmd], in which the line that empties the volume comes
    before the line that copies; and a run in which a directory test did
    not pass has no bulk copy. *)
Theorem wipe_only_after_checks (a : Sync.args) (sc : list reply)
    (fb : reply) (t l : nat) :
  let acts := effects (trace (snd (Sync.main a (fresh sc fb t l)))) in
  (forall pre x post,
      acts = (pre ++ x :: post)%list ->
      bulk_copy x = true ->
      existsb shows_running pre = true
      /\ existsb dir_test_passed pre = true
      /\ exists (pod : string) (i j : nat),
           fst x = Run ("kubectl" :: Sync.sync_cmd (Sync.namespace a) pod) None
           /\ String.index 0 Sync.wipe_line Sync.sync_script = Some i
           /\ String.index 0 Sync.copy_line Sync.sync_script = Some j
           /\ (i < j)%nat)
  /\ (existsb dir_test_failed acts = true -> existsb bulk_copy acts = false).
Proof.
  cbn zeta.
  destruct (main_audit a sc fb t l) as (_ & _ & Hg & Hfail & Hcmd & _).
  split; [| exact Hfail].
  intros pre x post Hacts Hx.
  destruct (guarded_sound _ _ _ Hg pre x post Hacts Hx) as [Hr Ht].
  cbn [orb] in Hr, Ht. split; [exact Hr |]. split; [exact Ht |].
  rewrite Forall_forall in Hcmd.
  assert (Hin : In x (effects (trace (snd (Sync.main a (fresh sc fb t l))))))
    by (rewrite Hacts; apply in_elt).
  eexists. eexists. eexists.
  split; [exact (Hcmd x Hin Hx) |].
  split; [vm_compute; reflexivity |].
  split; [vm_compute; reflexivity |].
  vm_compute. lia.
Qed.

(** C10: with [--dry-run], when the volume claim exists, the run issues
    the one [kubectl get pvc] command and nothing else, and ends with exit
    status 0. *)
Theorem dry_run_only_checks (a : Sync.args) (out err : string)
    (rest : list reply) (fb : reply) (t l : nat) :
  Sync.dry_run a = true ->
  let r := Sync.main a (fresh (Exited 0 out err :: rest) fb t l) in
  fst r = Raise (SystemExit 0)
  /\ exit_status (fst r) = Some 0
  /\ actions (trace (snd r))
     = [Run ["kubectl"; "get"; "pvc"; Sync.pvc_name a; "-n"; Sync.namespace a]
            None]
  /\ existsb apply_succeeded (effects (trace (snd r))) = false.
Proof.
  intros Hdry. step. rewrite Hdry. step. repeat split.
Qed.

Lemma dry_run_only_checks_witness :
  let r := Sync.main (Sync.mkArgs "data" "prod" "/srv/data" true true)
             (fresh [Exited 0 "data Bound" EmptyString] Interrupted 0 0) in
  fst r = Raise (SystemExit 0)
  /\ exit_status (fst r) = Some 0
  /\ actions (trace (snd r))
     = [Run ["kubectl"; "get"; "pvc"; "data"; "-n"; "prod"] None]
  /\ existsb apply_succeeded (effects (trace (snd r))) = false.
Proof.
  apply (dry_run_only_checks (Sync.mkArgs "data" "prod" "/srv/data" true true)
           "data Bound" EmptyString [] Interrupted 0%nat 0%nat).
  reflexivity.
Defined.
